(** * HAR analyzer: a shallow embedding of [src/har-analyzer.js]

    The class [HARAnalyzer] reads a browser network trace (HAR), folds its
    entries into a mutable [analysisReport] object and derives a list of
    optimisation hints from it.  The methods are embedded below as pure
    functions that pass the report explicitly.

    Modelling conventions.
    - JavaScript numbers that carry durations and offsets are rationals
      ([Q]): the arithmetic of the source ([+], [-], [/], comparisons,
      [Math.max], [Math.round]) is read over exact numbers.  Byte sizes,
      counts and epoch timestamps are integers ([Z]).  The code computes
      on doubles, which round a sum such as [start + time] at the magnitude
      of an epoch and make accumulated totals depend on the order of the
      additions; the statements below are therefore made on the stored
      values, with the operations in the order of the code, and do not rest
      on the algebra of exact sums.
    - JavaScript strings are [string]; [includes] and [substring] are
      read on characters.
    - The object [resourceBreakdown], used as a map from the resource
      type to its statistics, is a [gmap string ResourceStat].
    - [Array.prototype.sort] is stable; it is embedded as a stable
      insertion sort driven by the comparator of the call site. *)

From Stdlib Require Import ZArith QArith Qround Qminmax Lqa Lia.
From Stdlib Require Import Sorting.Sorted Sorting.Permutation.
From stdpp Require Import base option list gmap strings pretty.

(** ** JavaScript primitives used by the analyzer *)

Module JS.

(** [s.startsWith(t)], the auxiliary of [includes]. *)
Fixpoint startsWith (s t : string) : bool :=
  match t, s with
  | EmptyString, _ => true
  | String _ _, EmptyString => false
  | String c t', String d s' => if Ascii.eqb c d then startsWith s' t' else false
  end.

(** [s.includes(t)]: [t] occurs in [s] at some position. *)
Fixpoint includes (s t : string) : bool :=
  startsWith s t ||
  match s with
  | EmptyString => false
  | String _ s' => includes s' t
  end.

(** [s.substring(0, n)]. *)
Definition substring0 (n : nat) (s : string) : string := String.substring 0 n s.

(** [s.length]. *)
Definition length (s : string) : nat := String.length s.

(** [Math.round]: the nearest integer, halves rounded towards plus
    infinity. *)
Definition Math_round (x : Q) : Z := Qfloor (x + (1 # 2))%Q.

(** The result of a computation that may throw. *)
Inductive completion (A : Type) : Type :=
| Normal (a : A)
| Throw (message : string).
Arguments Normal {A} a.
Arguments Throw {A} message.

(** [Math.max(...(x :: xs))] on a non-empty argument list. *)
Definition Math_max (x : Q) (xs : list Q) : Q := fold_left Qmax xs x.

Section Sort.
Context {A : Type} (cmp : A -> A -> Q).

(** One insertion step: [x] stood before every element of [l] in the
    array, so it stays before the elements it compares equal to. *)
Fixpoint sort_insert (x : A) (l : list A) : list A :=
  match l with
  | [] => [x]
  | y :: l' => if Qle_bool (cmp x y) 0 then x :: y :: l' else y :: sort_insert x l'
  end.

(** [arr.sort(cmp)]. *)
Fixpoint sort (l : list A) : list A :=
  match l with
  | [] => []
  | x :: l' => sort_insert x (sort l')
  end.
End Sort.

End JS.

(** ** [formatBytes] *)

Definition k : Z := 1024.
Definition sizes : list string := ["Bytes"; "KB"; "MB"; "GB"].

(** [Math.floor(Math.log(bytes) / Math.log(k))] for [bytes > 0], read
    over the reals: the exponent of the largest power of [k = 2^10] that
    does not exceed [bytes] (see [unitIndex_spec]). *)
Definition unitIndex (bytes : Z) : Z := Z.log2 bytes / Z.log2 k.

(** [(bytes / Math.pow(k, i)).toFixed(2)] as a number of hundredths: the
    integer [n] with [n / 100] nearest to the quotient, the larger one on
    a tie.  The quotient of an integer below [2^53] by a power of two is
    exact, so nothing is lost before the rounding. *)
Definition toFixed2 (bytes : Z) (i : Z) : Z :=
  (200 * bytes + k ^ i) / (2 * k ^ i).

(** [parseFloat] of the two-decimal numeral followed by the conversion
    of the number to a string: trailing zeros of the fraction are
    dropped. *)
Definition hundredthsToString (n : Z) : string :=
  let whole := pretty (n / 100)%Z in
  let frac := (n mod 100)%Z in
  if (frac =? 0)%Z then whole
  else if (frac mod 10 =? 0)%Z then whole +:+ "." +:+ pretty (frac / 10)%Z
  else whole +:+ "." +:+ pretty (frac / 10)%Z +:+ pretty (frac mod 10)%Z.

(** [sizes[i]] followed by its conversion to a string. *)
Definition sizeUnit (i : Z) : string :=
  default "undefined" (sizes !! Z.to_nat i).

Definition formatBytes (bytes : Z) : string :=
  if (bytes =? 0)%Z then "0 Bytes"
  else if (bytes <? 0)%Z then "NaN undefined"
  else
    let i := unitIndex bytes in
    hundredthsToString (toFixed2 bytes i) +:+ " " +:+ sizeUnit i.

(** ** The data of a trace and of the report *)

(** One element of [harFile.log.entries], restricted to the fields the
    analyzer reads.  [startedDateTime] is the value of
    [new Date(entry.startedDateTime).getTime()], in milliseconds;
    [mimeType] and [size] are the fields of [entry.response.content],
    [None] when the field is absent. *)
Record Entry : Type := mkEntry {
  startedDateTime : Z;
  time : Q;
  url : string;
  method : string;
  status : Z;
  mimeType : option string;
  size : option Z
}.

(** [entry.response.content.mimeType || ""]. *)
Definition contentTypeOf (entry : Entry) : string :=
  match mimeType entry with
  | Some m => m
  | None => ""
  end.

(** [entry.response.content.size || 0]. *)
Definition sizeOf (entry : Entry) : Z :=
  match size entry with
  | Some n => n
  | None => 0
  end.

(** [new Date(entry.startedDateTime).getTime()] as a number. *)
Definition getTime (entry : Entry) : Q := inject_Z (startedDateTime entry).

Record Bottleneck : Type := mkBottleneck {
  b_url : string;
  b_type : string;
  b_time : Q;
  b_size : string;
  b_startTime : Q;
  b_issue : string
}.

Record CriticalPathItem : Type := mkCriticalPathItem {
  c_type : string;
  c_url : string;
  c_time : Q;
  c_size : string
}.

(** The elements of [performanceGaps]: the gaps of the timeline and the
    object of type ["Target Exceeded"].  The [suggestion] of the latter is
    a rendering of the target and of [excess] and is not kept. *)
Inductive PerformanceGap : Type :=
| TimelineGap (gapStart gapEnd gapDuration : Q)
              (beforeResource afterResource suggestion : string)
| TargetExceeded (excess : Q).

Record Optimization : Type := mkOptimization {
  priority : string;
  category : string;
  o_suggestion : string;
  impact : string;
  action : string
}.

Record ResourceStat : Type := mkResourceStat {
  count : Z;
  totalSize : Z;
  totalTime : Q;
  avgTime : Q;
  totalSizeFormatted : option string
}.

Record AnalysisReport : Type := mkAnalysisReport {
  totalLoadTime : Q;
  criticalPathItems : list CriticalPathItem;
  performanceGaps : list PerformanceGap;
  optimizations : list Optimization;
  resourceBreakdown : gmap string ResourceStat;
  bottlenecks : list Bottleneck
}.

(** The report of a fresh [HARAnalyzer] (the three paint metrics of the
    constructor are never written or read and are left out). *)
Definition initialReport : AnalysisReport :=
  {| totalLoadTime := 0;
     criticalPathItems := [];
     performanceGaps := [];
     optimizations := [];
     resourceBreakdown := ∅;
     bottlenecks := [] |}.

(** [this.targetLoadTime]. *)
Definition targetLoadTime : Q := 2.

Definition set_totalLoadTime (v : Q) (r : AnalysisReport) : AnalysisReport :=
  {| totalLoadTime := v;
     criticalPathItems := criticalPathItems r;
     performanceGaps := performanceGaps r;
     optimizations := optimizations r;
     resourceBreakdown := resourceBreakdown r;
     bottlenecks := bottlenecks r |}.

Definition set_criticalPathItems (v : list CriticalPathItem) (r : AnalysisReport)
  : AnalysisReport :=
  {| totalLoadTime := totalLoadTime r;
     criticalPathItems := v;
     performanceGaps := performanceGaps r;
     optimizations := optimizations r;
     resourceBreakdown := resourceBreakdown r;
     bottlenecks := bottlenecks r |}.

Definition set_performanceGaps (v : list PerformanceGap) (r : AnalysisReport)
  : AnalysisReport :=
  {| totalLoadTime := totalLoadTime r;
     criticalPathItems := criticalPathItems r;
     performanceGaps := v;
     optimizations := optimizations r;
     resourceBreakdown := resourceBreakdown r;
     bottlenecks := bottlenecks r |}.

Definition set_optimizations (v : list Optimization) (r : AnalysisReport)
  : AnalysisReport :=
  {| totalLoadTime := totalLoadTime r;
     criticalPathItems := criticalPathItems r;
     performanceGaps := performanceGaps r;
     optimizations := v;
     resourceBreakdown := resourceBreakdown r;
     bottlenecks := bottlenecks r |}.

Definition set_resourceBreakdown (v : gmap string ResourceStat) (r : AnalysisReport)
  : AnalysisReport :=
  {| totalLoadTime := totalLoadTime r;
     criticalPathItems := criticalPathItems r;
     performanceGaps := performanceGaps r;
     optimizations := optimizations r;
     resourceBreakdown := v;
     bottlenecks := bottlenecks r |}.

Definition set_bottlenecks (v : list Bottleneck) (r : AnalysisReport)
  : AnalysisReport :=
  {| totalLoadTime := totalLoadTime r;
     criticalPathItems := criticalPathItems r;
     performanceGaps := performanceGaps r;
     optimizations := optimizations r;
     resourceBreakdown := resourceBreakdown r;
     bottlenecks := v |}.

(** [a > b] on numbers. *)
Definition Qgt_bool (a b : Q) : bool := negb (Qle_bool a b).

(** ** [analyzeRequest] *)

(** The chain of tests on [contentType] that sets [resourceType]. *)
Definition resourceTypeOf (contentType : string) : string :=
  if JS.includes contentType "text/html" then "html"
  else if JS.includes contentType "text/css" then "css"
  else if JS.includes contentType "javascript" then "js"
  else if JS.includes contentType "image/" then "image"
  else if JS.includes contentType "font/" then "font"
  else "other".

(** [new Date(entry.startedDateTime).getTime() - startTime]. *)
Definition relativeStartTime (entry : Entry) (startTime : Q) : Q :=
  (getTime entry - startTime)%Q.

(** [url.substring(0, 100) + (url.length > 100 ? "..." : "")]. *)
Definition shortUrl (u : string) : string :=
  JS.substring0 100 u +:+ (if (100 <? JS.length u)%nat then "..." else "").

(** The object pushed on [bottlenecks] for [entry] with the given
    [issue]. *)
Definition bottleneckOf (entry : Entry) (startTime : Q) (issue : string) : Bottleneck :=
  {| b_url := shortUrl (url entry);
     b_type := resourceTypeOf (contentTypeOf entry);
     b_time := time entry;
     b_size := formatBytes (sizeOf entry);
     b_startTime := relativeStartTime entry startTime;
     b_issue := issue |}.

(** The two threshold tests of [analyzeRequest], in the order of the
    source: the objects they push. *)
Definition issuesOf (entry : Entry) (startTime : Q) : list Bottleneck :=
  (if Qgt_bool (time entry) 100 then [bottleneckOf entry startTime "Slow request"] else [])
  ++ (if (500 * 1024 <? sizeOf entry)%Z
      then [bottleneckOf entry startTime "Large file size"] else []).

Definition emptyStat : ResourceStat :=
  {| count := 0; totalSize := 0; totalTime := 0; avgTime := 0;
     totalSizeFormatted := None |}.

(** The four assignments that close [analyzeRequest]: [count++],
    [totalSize += size], [totalTime += time] and
    [avgTime = totalTime / count]. *)
Definition addRequest (sz : Z) (t : Q) (st : ResourceStat) : ResourceStat :=
  let count' := (count st + 1)%Z in
  let totalTime' := (totalTime st + t)%Q in
  {| count := count';
     totalSize := (totalSize st + sz)%Z;
     totalTime := totalTime';
     avgTime := (totalTime' / inject_Z count')%Q;
     totalSizeFormatted := totalSizeFormatted st |}.

(** The update of [resourceBreakdown]: a fresh statistics object is
    stored when the type has none, then the object of the type is
    updated.  The keys are the six resource types, none of which is a
    property inherited by a plain object. *)
Definition updateBreakdown (resourceType : string) (sz : Z) (t : Q)
    (rb : gmap string ResourceStat) : gmap string ResourceStat :=
  let rb1 :=
    match rb !! resourceType with
    | Some _ => rb
    | None => <[resourceType := emptyStat]> rb
    end in
  alter (addRequest sz t) resourceType rb1.

(** [analyzeRequest(entry, index, startTime)]; the body does not read
    [index]. *)
Definition analyzeRequest (entry : Entry) (startTime : Q) (r : AnalysisReport)
  : AnalysisReport :=
  let r1 := set_bottlenecks (bottlenecks r ++ issuesOf entry startTime) r in
  set_resourceBreakdown
    (updateBreakdown (resourceTypeOf (contentTypeOf entry)) (sizeOf entry) (time entry)
       (resourceBreakdown r1)) r1.

(** ** [identifyCriticalPath] *)

(** The predicate of [entries.find]:
    [mimeType && mimeType.includes("text/html")]. *)
Definition isHtmlDocument (entry : Entry) : bool :=
  match mimeType entry with
  | Some m => JS.includes m "text/html"
  | None => false
  end.

(** The predicate of [entries.filter]. *)
Definition isCriticalResource (entry : Entry) : bool :=
  (JS.includes (contentTypeOf entry) "text/css"
   || JS.includes (contentTypeOf entry) "javascript")
  && negb (JS.includes (url entry) "analytics")
  && negb (JS.includes (url entry) "tracking").

Definition htmlItem (entry : Entry) : CriticalPathItem :=
  {| c_type := "HTML Document";
     c_url := JS.substring0 80 (url entry) +:+ "...";
     c_time := time entry;
     c_size := formatBytes (sizeOf entry) |}.

Definition criticalItem (entry : Entry) : CriticalPathItem :=
  {| c_type := if JS.includes (contentTypeOf entry) "css"
               then "Critical CSS" else "Critical JS";
     c_url := JS.substring0 80 (url entry) +:+ "...";
     c_time := time entry;
     c_size := formatBytes (sizeOf entry) |}.

(** [entries.filter(...).sort((a, b) => a.time - b.time)]. *)
Definition criticalResources (entries : list Entry) : list Entry :=
  JS.sort (fun a b => (time a - time b)%Q) (List.filter isCriticalResource entries).

Definition identifyCriticalPath (entries : list Entry) (r : AnalysisReport)
  : AnalysisReport :=
  let htmlPart :=
    match List.find isHtmlDocument entries with
    | Some htmlEntry => [htmlItem htmlEntry]
    | None => []
    end in
  set_criticalPathItems
    (criticalPathItems r ++ htmlPart
       ++ List.map criticalItem (take 5 (criticalResources entries))) r.

(** ** [findPerformanceGaps] *)

Record TimelineItem : Type := mkTimelineItem {
  t_start : Q;
  t_end : Q;
  t_url : string;
  t_time : Q
}.

Definition timelineItem (startTime : Q) (entry : Entry) : TimelineItem :=
  {| t_start := (getTime entry - startTime)%Q;
     t_end := (getTime entry - startTime + time entry)%Q;
     t_url := url entry;
     t_time := time entry |}.

(** [entries.map(...).sort((a, b) => a.start - b.start)]. *)
Definition timelineOf (entries : list Entry) (startTime : Q) : list TimelineItem :=
  JS.sort (fun a b => (t_start a - t_start b)%Q) (List.map (timelineItem startTime) entries).

(** The object pushed for the pair [timeline[i - 1]], [timeline[i]]. *)
Definition gapBetween (prev next : TimelineItem) : PerformanceGap :=
  let gap := (t_start next - t_end prev)%Q in
  TimelineGap (t_end prev) (t_start next) gap
    (JS.substring0 50 (t_url prev) +:+ "...")
    (JS.substring0 50 (t_url next) +:+ "...")
    (if Qgt_bool gap 200 then "Critical gap - investigate waterfall"
     else "Minor optimization opportunity").

(** The body of the loop for one index [i]. *)
Definition gapAt (timeline : list TimelineItem) (i : nat) : list PerformanceGap :=
  match timeline !! (i - 1)%nat, timeline !! i with
  | Some prev, Some next =>
      if Qgt_bool (t_start next - t_end prev)%Q 50 then [gapBetween prev next] else []
  | _, _ => []
  end.

(** [for (let i = 1; i < timeline.length; i++)]. *)
Definition timelineGaps (timeline : list TimelineItem) : list PerformanceGap :=
  flat_map (gapAt timeline) (seq 1 (List.length timeline - 1)).

Definition findPerformanceGaps (entries : list Entry) (startTime : Q) (r : AnalysisReport)
  : AnalysisReport :=
  let timeline := timelineOf entries startTime in
  let r1 := set_performanceGaps (performanceGaps r ++ timelineGaps timeline) r in
  if Qgt_bool (totalLoadTime r1) targetLoadTime
  then set_performanceGaps
         (performanceGaps r1 ++ [TargetExceeded (totalLoadTime r1 - targetLoadTime)%Q]) r1
  else r1.

(** ** [analyzeResourceBreakdown] and [identifyBottlenecks] *)

Definition finishStat (st : ResourceStat) : ResourceStat :=
  {| count := count st;
     totalSize := totalSize st;
     totalTime := totalTime st;
     avgTime := inject_Z (JS.Math_round (avgTime st));
     totalSizeFormatted := Some (formatBytes (totalSize st)) |}.

Definition analyzeResourceBreakdown (r : AnalysisReport) : AnalysisReport :=
  set_resourceBreakdown (finishStat <$> resourceBreakdown r) r.

(** [bottlenecks.sort((a, b) => b.time - a.time)]. *)
Definition identifyBottlenecks (r : AnalysisReport) : AnalysisReport :=
  set_bottlenecks (JS.sort (fun a b => (b_time b - b_time a)%Q) (bottlenecks r)) r.

(** ** [performAnalysis] *)

(** [new Date(entry.startedDateTime).getTime() + entry.time]. *)
Definition endOf (entry : Entry) : Q := (getTime entry + time entry)%Q.

Definition performAnalysis (entries : list Entry) (r : AnalysisReport)
  : JS.completion AnalysisReport :=
  match entries with
  | [] =>
      (* [entries[0]] is [undefined]: reading [startedDateTime] throws *)
      JS.Throw "Cannot read properties of undefined (reading 'startedDateTime')"
  | first :: rest =>
      let startTime := getTime first in
      let endTime := JS.Math_max (endOf first) (List.map endOf rest) in
      let r1 := set_totalLoadTime (endTime - startTime)%Q r in
      let r2 := fold_left (fun acc entry => analyzeRequest entry startTime acc) entries r1 in
      let r3 := identifyCriticalPath entries r2 in
      let r4 := findPerformanceGaps entries startTime r3 in
      let r5 := analyzeResourceBreakdown r4 in
      JS.Normal (identifyBottlenecks r5)
  end.

(** ** [generateOptimizationPlan] *)

Definition imagesOptimization : Optimization :=
  {| priority := "HIGH";
     category := "Images";
     o_suggestion := "Convert images to WebP format and implement responsive sizing";
     impact := "Could save 60-80% on image file sizes";
     action := "Run the WebP converter script" |}.

Definition fileSizeOptimization : Optimization :=
  {| priority := "HIGH";
     category := "File Size";
     o_suggestion := "Compress and optimize large files";
     impact := "Reduce bandwidth usage by 50-70%";
     action := "Implement gzip/brotli compression" |}.

Definition networkOptimization : Optimization :=
  {| priority := "MEDIUM";
     category := "Network";
     o_suggestion := "Optimize slow requests with caching and CDN";
     impact := "Reduce request times by 40-60%";
     action := "Implement proper caching headers and CDN" |}.

Definition loadingStrategyOptimization : Optimization :=
  {| priority := "MEDIUM";
     category := "Loading Strategy";
     o_suggestion := "Optimize resource loading order and implement preloading";
     impact := "Reduce loading gaps and improve perceived performance";
     action := "Implement resource hints and optimize critical path" |}.

Definition overallOptimization (r : AnalysisReport) : Optimization :=
  {| priority := "CRITICAL";
     category := "Overall Performance";
     o_suggestion := "Total load time is " +:+ pretty (JS.Math_round (totalLoadTime r))
                     +:+ "ms, target is 2ms";
     impact := "Critical for user experience";
     action := "Implement all high-priority optimizations immediately" |}.

Definition optimizationPlan (r : AnalysisReport) : list Optimization :=
  let imageBottlenecks :=
    List.filter (fun b => String.eqb (b_type b) "image") (bottlenecks r) in
  let largeFiles :=
    List.filter (fun b => String.eqb (b_issue b) "Large file size") (bottlenecks r) in
  let slowRequests :=
    List.filter (fun b => String.eqb (b_issue b) "Slow request") (bottlenecks r) in
  (if (0 <? List.length imageBottlenecks)%nat then [imagesOptimization] else [])
  ++ (if (0 <? List.length largeFiles)%nat then [fileSizeOptimization] else [])
  ++ (if (0 <? List.length slowRequests)%nat then [networkOptimization] else [])
  ++ (if (0 <? List.length (performanceGaps r))%nat
      then [loadingStrategyOptimization] else [])
  ++ (if Qgt_bool (totalLoadTime r) targetLoadTime then [overallOptimization r] else []).

Definition generateOptimizationPlan (r : AnalysisReport) : AnalysisReport :=
  set_optimizations (optimizationPlan r) r.

(** [analyzeHARFile] once the file is read and parsed: the analysis
    followed by the plan ([generateReport], in between, prints and saves
    the report and does not change it).  An exception of the analysis is
    caught and ends the process with status 1; no report is left. *)
Definition analyzeHARFile (entries : list Entry) : JS.completion AnalysisReport :=
  match performAnalysis entries initialReport with
  | JS.Normal r => JS.Normal (generateOptimizationPlan r)
  | JS.Throw msg => JS.Throw msg
  end.

(** ** Reading of the claims: definitions that follow the specification *)

(** The smallest start timestamp of a non-empty trace. *)
Definition spec_minStart (first : Entry) (rest : list Entry) : Q :=
  fold_left Qmin (List.map getTime rest) (getTime first).

(** The largest end timestamp of a non-empty trace. *)
Definition spec_maxEnd (first : Entry) (rest : list Entry) : Q :=
  fold_left Qmax (List.map endOf rest) (endOf first).

(** The specification's total load time: latest end minus earliest
    start. *)
Definition spec_totalLoadTime (first : Entry) (rest : list Entry) : Q :=
  (spec_maxEnd first rest - spec_minStart first rest)%Q.

(** The specification's choice of the document: among the entries of
    class html, one with the smallest start timestamp (the first of them
    on a tie). *)
Fixpoint spec_htmlEntry (entries : list Entry) : option Entry :=
  match entries with
  | [] => None
  | e :: rest =>
      if isHtmlDocument e then
        match spec_htmlEntry rest with
        | Some e' => if Qle_bool (getTime e) (getTime e') then Some e else Some e'
        | None => Some e
        end
      else spec_htmlEntry rest
  end.

(** The sum of [count] over the types of a breakdown. *)
Definition sumCounts (rb : gmap string ResourceStat) : Z :=
  map_fold (fun _ st acc => (count st + acc)%Z) 0%Z rb.

(** The breakdown after the calls of [analyzeRequest] on [entries], from
    the breakdown [rb]. *)
Definition breakdownOf (entries : list Entry) (rb : gmap string ResourceStat)
  : gmap string ResourceStat :=
  fold_left
    (fun acc entry =>
       updateBreakdown (resourceTypeOf (contentTypeOf entry)) (sizeOf entry)
         (time entry) acc)
    entries rb.

(** The statistics of a type after the requests [l] of that type, from
    the statistics [st]. *)
Definition statOf (l : list Entry) (st : ResourceStat) : ResourceStat :=
  fold_left (fun acc e => addRequest (sizeOf e) (time e) acc) l st.

(** The entries of a resource type. *)
Definition entriesOfType (ty : string) (entries : list Entry) : list Entry :=
  List.filter (fun e => String.eqb (resourceTypeOf (contentTypeOf e)) ty) entries.

(** The object of type ["Target Exceeded"], pushed when the total load
    time [t] exceeds the target. *)
Definition targetFinding (t : Q) : list PerformanceGap :=
  if Qgt_bool t targetLoadTime then [TargetExceeded (t - targetLoadTime)%Q] else [].

(** [t] occurs in [s]. *)
Definition occursIn (t s : string) : Prop :=
  exists pre post : string, s = pre +:+ t +:+ post.

(** The resource types. *)
Definition resourceTypes : list string :=
  ["html"; "css"; "js"; "image"; "font"; "other"].

(** ** Example traces *)

Definition entry_ (start : Z) (t : Q) (u m : string) (sz : Z) : Entry :=
  mkEntry start t u "GET" 200 (Some m) (Some sz).

(** A document and a style sheet that overlap. *)
Definition trace_overlap : list Entry :=
  [entry_ 1000 50 "http://localhost:3000/" "text/html" 20480;
   entry_ 1010 30 "http://localhost:3000/a.css" "text/css" 5120].

(** The first request ends at 100ms, the second starts at 400ms. *)
Definition trace_gap : list Entry :=
  [entry_ 1000 100 "http://localhost:3000/" "text/html" 20480;
   entry_ 1400 30 "http://localhost:3000/a.css" "text/css" 5120].

(** One slow and large image. *)
Definition trace_image : list Entry :=
  [entry_ 1000 150 "http://localhost:3000/big.png" "image/png" (600 * 1024)].

(** The first entry of the list is not the earliest request. *)
Definition trace_unordered : list Entry :=
  [entry_ 1100 10 "http://localhost:3000/b" "text/plain" 1;
   entry_ 1000 10 "http://localhost:3000/a" "text/plain" 1].

(** Two documents, the later one first in the list. *)
Definition trace_two_documents : list Entry :=
  [entry_ 1100 10 "http://localhost:3000/late" "text/html" 1;
   entry_ 1000 10 "http://localhost:3000/early" "text/html" 1].

(** Two requests of the same type that take 1ms and 2ms. *)
Definition trace_average : list Entry :=
  [entry_ 1000 1 "http://localhost:3000/a" "text/plain" 1;
   entry_ 1000 2 "http://localhost:3000/b" "text/plain" 1].

(** ** [generateReport] and the run of [analyzeHARFile] *)

(** The object [summary] of the saved report. *)
Record Summary : Type := mkSummary {
  s_totalLoadTime : Q;
  s_targetLoadTime : Q;
  s_performanceStatus : string
}.

(** The document written to [har-analysis-report.json]: the summary and
    the fields of [analysisReport] as they are when [generateReport] is
    called (the [timestamp], read from the clock, is left out). *)
Record SavedReport : Type := mkSavedReport {
  summary : Summary;
  savedFields : AnalysisReport
}.

(** [totalLoadTime <= targetLoadTime ? "GOOD" : "NEEDS_OPTIMIZATION"]. *)
Definition performanceStatus (r : AnalysisReport) : string :=
  if Qle_bool (totalLoadTime r) targetLoadTime then "GOOD" else "NEEDS_OPTIMIZATION".

(** [performanceGaps.slice(0, 5)], the gaps that are printed. *)
Definition printedGaps (r : AnalysisReport) : list PerformanceGap :=
  take 5 (performanceGaps r).

(** [bottlenecks.slice(0, 5)], the bottlenecks that are printed. *)
Definition printedBottlenecks (r : AnalysisReport) : list Bottleneck :=
  take 5 (bottlenecks r).

(** [optimizations.length > 0], the test that guards the printing of the
    recommendations. *)
Definition printsOptimizations (r : AnalysisReport) : bool :=
  (0 <? List.length (optimizations r))%nat.

Definition generateReport (r : AnalysisReport) : SavedReport :=
  {| summary :=
       {| s_totalLoadTime := totalLoadTime r;
          s_targetLoadTime := targetLoadTime;
          s_performanceStatus := performanceStatus r |};
     savedFields := r |}.

(** What a run of [analyzeHARFile] leaves: the document saved by
    [generateReport], called between the analysis and the plan, and the
    report of the analyzer after the plan. *)
Definition analyzeHARFileOutputs (entries : list Entry)
  : JS.completion (SavedReport * AnalysisReport) :=
  match performAnalysis entries initialReport with
  | JS.Normal r => JS.Normal (generateReport r, generateOptimizationPlan r)
  | JS.Throw msg => JS.Throw msg
  end.

(** ** The total load time of [analyzeHAR] in [src/simple-performance-test.js] *)

(** [Math.min(...(x :: xs))] on a non-empty argument list. *)
Definition Math_min (x : Q) (xs : list Q) : Q := fold_left Qmin xs x.

(** [totalTime] of the second analyzer of the repository:
    [entries.length > 0 ? Math.max(...ends) - Math.min(...starts) : 0]. *)
Definition analyzeHAR_totalTime (entries : list Entry) : Q :=
  match entries with
  | [] => 0%Q
  | first :: rest =>
      (JS.Math_max (endOf first) (List.map endOf rest)
       - Math_min (getTime first) (List.map getTime rest))%Q
  end.

(** ** Auxiliary readings for the statements *)

(** The entry [e] recorded [d] milliseconds later. *)
Definition shiftEntry (d : Z) (e : Entry) : Entry :=
  {| startedDateTime := startedDateTime e + d;
     time := time e;
     url := url e;
     method := method e;
     status := status e;
     mimeType := mimeType e;
     size := size e |}.

(** The sum of the sizes of a list of entries. *)
Definition sumSizes (l : list Entry) : Z :=
  fold_right (fun e acc => (sizeOf e + acc)%Z) 0%Z l.

(** The times of a list of entries added up from 0 in the order of the
    list, as a running total does. *)
Definition accumulatedTimes (l : list Entry) : Q :=
  fold_left (fun acc e => (acc + time e)%Q) l 0%Q.

(** The interval of a gap of the timeline. *)
Definition gapInterval (g : PerformanceGap) : option (Q * Q) :=
  match g with
  | TimelineGap gs ge _ _ _ _ => Some (gs, ge)
  | TargetExceeded _ => None
  end.

(** The five recommendations in the order of the rules. *)
Definition ruleOrder (r : AnalysisReport) : list Optimization :=
  [imagesOptimization; fileSizeOptimization; networkOptimization;
   loadingStrategyOptimization; overallOptimization r].

(** * Properties *)

(** ** Strings *)

Lemma startsWith_spec (s t : string) :
  JS.startsWith s t = true <-> exists post, s = t +:+ post.
Proof.
  revert s; induction t as [|c t IH]; intros s.
  - split; [intros _; exists s; reflexivity | intros _; destruct s; reflexivity].
  - destruct s as [|d s]; simpl.
    + split; [discriminate | intros [post H]; discriminate].
    + destruct (Ascii.eqb_spec c d) as [->|Hne].
      * rewrite IH. split; intros [post H]; exists post.
        -- simpl. now rewrite H.
        -- simpl in H. now inversion H.
      * split; [discriminate | intros [post H]; simpl in H; inversion H; congruence].
Qed.

Lemma includes_spec (s t : string) :
  JS.includes s t = true <-> occursIn t s.
Proof.
  unfold occursIn. induction s as [|d s IH].
  - cbn [JS.includes]. rewrite orb_false_r, startsWith_spec. split.
    + intros [post H]; exists "", post; exact H.
    + intros [pre [post H]]. destruct pre; [exists post; exact H|discriminate].
  - cbn [JS.includes]. rewrite orb_true_iff, IH, startsWith_spec. split.
    + intros [[post H]|[pre [post H]]].
      * exists "", post; exact H.
      * exists (String d pre), post; simpl; now rewrite H.
    + intros [pre [post H]]. destruct pre as [|c pre].
      * left; exists post; exact H.
      * right; exists pre, post. simpl in H. now inversion H.
Qed.

Lemma includes_false (s t : string) :
  JS.includes s t = false <-> ~ occursIn t s.
Proof.
  rewrite <- includes_spec. destruct (JS.includes s t); split; congruence.
Qed.

(** ** Numbers *)

Lemma Qgt_bool_spec (a b : Q) : Qgt_bool a b = true <-> (b < a)%Q.
Proof.
  unfold Qgt_bool. rewrite negb_true_iff. split.
  - intros H. apply Qnot_le_lt. intros Hle.
    apply Qle_bool_iff in Hle. congruence.
  - intros H. destruct (Qle_bool a b) eqn:E; [|reflexivity].
    apply Qle_bool_iff in E. exfalso. exact (Qlt_not_le _ _ H E).
Qed.

Lemma Qgt_bool_false (a b : Q) : Qgt_bool a b = false <-> (a <= b)%Q.
Proof.
  unfold Qgt_bool. rewrite negb_false_iff. apply Qle_bool_iff.
Qed.

(** ** [formatBytes] *)

(** [unitIndex] is the floor of the logarithm in base [k]. *)
Lemma unitIndex_spec (bytes : Z) :
  (0 < bytes)%Z ->
  (0 <= unitIndex bytes)%Z /\
  (k ^ unitIndex bytes <= bytes < k ^ (unitIndex bytes + 1))%Z.
Proof.
  intros Hpos. unfold unitIndex, k.
  change (Z.log2 1024) with 10%Z.
  pose proof (Z.log2_nonneg bytes) as Hl.
  pose proof (Z.log2_spec bytes Hpos) as [Hlo Hhi].
  set (l := Z.log2 bytes) in *.
  assert (Hq : (0 <= l / 10)%Z) by (apply Z.div_pos; lia).
  split; [exact Hq|].
  change 1024%Z with (2 ^ 10)%Z.
  rewrite <- !Z.pow_mul_r by lia.
  pose proof (Z.mul_div_le l 10 ltac:(lia)) as H1.
  pose proof (Z.mul_succ_div_gt l 10 ltac:(lia)) as H2.
  split.
  - apply Z.le_trans with (2 ^ l)%Z; [|exact Hlo].
    apply Z.pow_le_mono_r; lia.
  - apply Z.lt_le_trans with (2 ^ Z.succ l)%Z; [exact Hhi|].
    apply Z.pow_le_mono_r; lia.
Qed.

Lemma unitIndex_lt (bytes n : Z) :
  (0 < bytes)%Z -> (0 <= n)%Z -> (bytes < k ^ n)%Z -> (unitIndex bytes < n)%Z.
Proof.
  intros Hpos Hn Hlt.
  destruct (unitIndex_spec bytes Hpos) as [H0 [Hlo _]].
  destruct (Z_lt_le_dec (unitIndex bytes) n) as [|Hge]; [assumption|].
  exfalso. assert (k ^ n <= k ^ unitIndex bytes)%Z
    by (apply Z.pow_le_mono_r; unfold k; lia).
  lia.
Qed.

Lemma unitIndex_ge (bytes n : Z) :
  (0 <= n)%Z -> (k ^ n <= bytes)%Z -> (n <= unitIndex bytes)%Z.
Proof.
  intros Hn Hle.
  assert (Hpos : (0 < bytes)%Z).
  { assert (0 < k ^ n)%Z by (apply Z.pow_pos_nonneg; unfold k; lia). lia. }
  destruct (unitIndex_spec bytes Hpos) as [H0 [_ Hhi]].
  destruct (Z_lt_le_dec (unitIndex bytes) n) as [Hlt|]; [|assumption].
  exfalso. assert (k ^ (unitIndex bytes + 1) <= k ^ n)%Z
    by (apply Z.pow_le_mono_r; unfold k; lia).
  lia.
Qed.

Lemma formatBytes_pos (bytes : Z) :
  (0 < bytes)%Z ->
  formatBytes bytes =
  hundredthsToString (toFixed2 bytes (unitIndex bytes)) +:+ " "
    +:+ sizeUnit (unitIndex bytes).
Proof.
  intros Hpos. unfold formatBytes.
  destruct (Z.eqb_spec bytes 0); [lia|].
  destruct (Z.ltb_spec bytes 0); [lia|reflexivity].
Qed.

(** C10: for [0 <= bytes < 1024^4] the index computed by [formatBytes]
    stays inside [sizes], the result ends with one of the four units, and
    [0] gives ["0 Bytes"]; from [1024^4] on the index is past the end of
    [sizes] and the unit is read as [undefined]. *)
Theorem C10_formatBytes_unit_in_bounds (bytes : Z) :
  ((0 <= bytes < 1024 ^ 4)%Z ->
     (bytes = 0%Z -> formatBytes bytes = "0 Bytes") /\
     ((0 < bytes)%Z ->
        (0 <= unitIndex bytes < Z.of_nat (List.length sizes))%Z /\
        exists u : string,
          sizes !! Z.to_nat (unitIndex bytes) = Some u /\
          In u ["Bytes"; "KB"; "MB"; "GB"] /\
          formatBytes bytes =
          hundredthsToString (toFixed2 bytes (unitIndex bytes)) +:+ " " +:+ u)) /\
  ((1024 ^ 4 <= bytes)%Z ->
     (Z.of_nat (List.length sizes) <= unitIndex bytes)%Z /\
     sizes !! Z.to_nat (unitIndex bytes) = None /\
     formatBytes bytes =
     hundredthsToString (toFixed2 bytes (unitIndex bytes)) +:+ " undefined").
Proof.
  split.
  - intros [Hlo Hhi]. split; [intros ->; reflexivity|].
    intros Hpos.
    destruct (unitIndex_spec bytes Hpos) as [H0 _].
    pose proof (unitIndex_lt bytes 4 Hpos ltac:(lia) Hhi) as H4.
    split; [simpl; lia|].
    rewrite formatBytes_pos by assumption. unfold sizeUnit.
    assert (Hi : unitIndex bytes = 0%Z \/ unitIndex bytes = 1%Z \/
                 unitIndex bytes = 2%Z \/ unitIndex bytes = 3%Z) by lia.
    destruct Hi as [-> | [-> | [-> | ->]]]; simpl;
      eexists; (split; [reflexivity|]); (split; [|reflexivity]);
      simpl; tauto.
  - intros Hge.
    pose proof (unitIndex_ge bytes 4 ltac:(lia) Hge) as H4.
    assert (Hpos : (0 < bytes)%Z) by lia.
    assert (Hnone : sizes !! Z.to_nat (unitIndex bytes) = None).
    { apply lookup_ge_None_2. simpl. lia. }
    split; [simpl; lia|]. split; [exact Hnone|].
    rewrite formatBytes_pos by assumption. unfold sizeUnit.
    now rewrite Hnone.
Qed.

Lemma C10_formatBytes_witness :
  formatBytes 1536 = "1.5 KB" /\ formatBytes (1024 ^ 4) = "1 undefined".
Proof.
  split.
  - destruct (proj1 (C10_formatBytes_unit_in_bounds 1536) ltac:(lia)) as [_ H].
    destruct (H ltac:(lia)) as [_ [u [Hu [_ Hf]]]].
    vm_compute in Hu. injection Hu as <-. rewrite Hf. vm_compute. reflexivity.
  - destruct (proj2 (C10_formatBytes_unit_in_bounds (1024 ^ 4)) ltac:(lia))
      as [_ [_ Hf]].
    rewrite Hf. vm_compute. reflexivity.
Defined.

(** ** Classification of a request *)

Lemma analyzeRequest_bottlenecks (entry : Entry) (startTime : Q) (r : AnalysisReport) :
  bottlenecks (analyzeRequest entry startTime r)
  = bottlenecks r ++ issuesOf entry startTime.
Proof. reflexivity. Qed.

Lemma analyzeRequest_resourceBreakdown (entry : Entry) (startTime : Q)
    (r : AnalysisReport) :
  resourceBreakdown (analyzeRequest entry startTime r)
  = updateBreakdown (resourceTypeOf (contentTypeOf entry)) (sizeOf entry) (time entry)
      (resourceBreakdown r).
Proof. reflexivity. Qed.

Lemma In_if_singleton {A : Type} (c : bool) (x b : A) :
  In b (if c then [x] else []) <-> b = x /\ c = true.
Proof.
  destruct c; simpl; split.
  - intros [<-|[]]; auto.
  - intros [-> _]; auto.
  - intros [].
  - intros [_ H]; discriminate.
Qed.

Lemma issuesOf_In (entry : Entry) (startTime : Q) (b : Bottleneck) :
  In b (issuesOf entry startTime) <->
  (b = bottleneckOf entry startTime "Slow request" /\ (100 < time entry)%Q) \/
  (b = bottleneckOf entry startTime "Large file size" /\ (500 * 1024 < sizeOf entry)%Z).
Proof.
  unfold issuesOf.
  rewrite in_app_iff, !In_if_singleton, Qgt_bool_spec, Z.ltb_lt. reflexivity.
Qed.

Lemma updateBreakdown_lookup_ne (k k' : string) (sz : Z) (t : Q)
    (rb : gmap string ResourceStat) :
  k <> k' -> updateBreakdown k sz t rb !! k' = rb !! k'.
Proof.
  intros Hne. unfold updateBreakdown.
  rewrite lookup_alter_ne by assumption.
  destruct (rb !! k); [reflexivity|]. now rewrite lookup_insert_ne.
Qed.

Lemma updateBreakdown_lookup_eq (k : string) (sz : Z) (t : Q)
    (rb : gmap string ResourceStat) :
  updateBreakdown k sz t rb !! k
  = Some (addRequest sz t (default emptyStat (rb !! k))).
Proof.
  unfold updateBreakdown. rewrite lookup_alter_eq.
  destruct (rb !! k) as [st|] eqn:E.
  - now rewrite E.
  - now rewrite lookup_insert_eq.
Qed.

(** C7: the resource type is a total function of the content type,
    decided by the first marker that occurs in it, in the order
    [text/html], [text/css], [javascript], [image/], [font/], with [other]
    when none occurs or the content type is missing or empty; the type and
    the start offset that [analyzeRequest] records for an entry depend on
    the entry and the time origin only, whatever the report it is applied
    to. *)
Theorem C7_resource_class_by_priority (entry : Entry) :
  let m := contentTypeOf entry in
  let class := resourceTypeOf m in
  In class resourceTypes /\
  (occursIn "text/html" m -> class = "html") /\
  (~ occursIn "text/html" m -> occursIn "text/css" m -> class = "css") /\
  (~ occursIn "text/html" m -> ~ occursIn "text/css" m ->
   occursIn "javascript" m -> class = "js") /\
  (~ occursIn "text/html" m -> ~ occursIn "text/css" m ->
   ~ occursIn "javascript" m -> occursIn "image/" m -> class = "image") /\
  (~ occursIn "text/html" m -> ~ occursIn "text/css" m ->
   ~ occursIn "javascript" m -> ~ occursIn "image/" m ->
   occursIn "font/" m -> class = "font") /\
  (~ occursIn "text/html" m -> ~ occursIn "text/css" m ->
   ~ occursIn "javascript" m -> ~ occursIn "image/" m ->
   ~ occursIn "font/" m -> class = "other") /\
  (mimeType entry = None \/ mimeType entry = Some "" -> class = "other") /\
  (forall (startTime : Q) (r : AnalysisReport),
     let r' := analyzeRequest entry startTime r in
     bottlenecks r' = bottlenecks r ++ issuesOf entry startTime /\
     (forall b, In b (issuesOf entry startTime) ->
        b_type b = class /\ b_startTime b = (getTime entry - startTime)%Q) /\
     is_Some (resourceBreakdown r' !! class) /\
     (forall k', k' <> class -> resourceBreakdown r' !! k' = resourceBreakdown r !! k')).
Proof.
  intros m class. subst class. unfold resourceTypes.
  split; [|split; [|split; [|split; [|split; [|split; [|split; [|split]]]]]]].
  1-8: unfold resourceTypeOf.
  - repeat (match goal with |- context [if ?c then _ else _] => destruct c end);
      simpl; tauto.
  - intros H. apply includes_spec in H. now rewrite H.
  - intros N1 H. apply includes_false in N1. apply includes_spec in H.
    now rewrite N1, H.
  - intros N1 N2 H. apply includes_false in N1, N2. apply includes_spec in H.
    now rewrite N1, N2, H.
  - intros N1 N2 N3 H. apply includes_false in N1, N2, N3. apply includes_spec in H.
    now rewrite N1, N2, N3, H.
  - intros N1 N2 N3 N4 H. apply includes_false in N1, N2, N3, N4.
    apply includes_spec in H. now rewrite N1, N2, N3, N4, H.
  - intros N1 N2 N3 N4 N5. apply includes_false in N1, N2, N3, N4, N5.
    now rewrite N1, N2, N3, N4, N5.
  - subst m. unfold contentTypeOf. intros [-> | ->]; reflexivity.
  - intros startTime r. cbv zeta. subst m.
    split; [reflexivity|]. split; [|split].
    + intros b Hb. apply issuesOf_In in Hb.
      destruct Hb as [[-> _]|[-> _]]; split; reflexivity.
    + rewrite analyzeRequest_resourceBreakdown, updateBreakdown_lookup_eq. eauto.
    + intros k' Hne. rewrite analyzeRequest_resourceBreakdown.
      apply updateBreakdown_lookup_ne. congruence.
Qed.

Lemma C7_resource_class_witness :
  resourceTypeOf "application/javascript; charset=utf-8" = "js".
Proof.
  pose (e := mkEntry 0 0 "" "GET" 200 (Some "application/javascript; charset=utf-8") None).
  destruct (C7_resource_class_by_priority e) as (_ & _ & _ & H & _).
  apply H.
  - apply includes_false. reflexivity.
  - apply includes_false. reflexivity.
  - apply includes_spec. reflexivity.
Defined.

(** ** [Array.prototype.sort] *)

Section SortFacts.
Context {A : Type} (cmp : A -> A -> Q) (R : A -> A -> Prop).
Hypothesis cmp_R : forall a b, (cmp a b <= 0)%Q <-> R a b.
Hypothesis R_total : forall a b, R a b \/ R b a.
Hypothesis R_trans : forall a b c, R a b -> R b c -> R a c.

Lemma sort_insert_perm (x : A) (l : list A) :
  Permutation (JS.sort_insert cmp x l) (x :: l).
Proof.
  induction l as [|y l IH]; simpl; [reflexivity|].
  destruct (Qle_bool (cmp x y) 0); [reflexivity|].
  rewrite IH. apply perm_swap.
Qed.

Lemma sort_perm (l : list A) : Permutation (JS.sort cmp l) l.
Proof.
  induction l as [|x l IH]; simpl; [reflexivity|].
  rewrite sort_insert_perm. now rewrite IH.
Qed.

Lemma sort_insert_sorted (x : A) (l : list A) :
  StronglySorted R l -> StronglySorted R (JS.sort_insert cmp x l).
Proof.
  induction 1 as [|y l Hs IH Hall]; simpl.
  - repeat constructor.
  - destruct (Qle_bool (cmp x y) 0) eqn:E.
    + apply Qle_bool_iff, cmp_R in E.
      constructor; [constructor; assumption|].
      constructor; [exact E|].
      eapply Forall_impl; [exact Hall|]. intros z Hz. eapply R_trans; eassumption.
    + assert (Hyx : R y x).
      { destruct (R_total x y) as [Hxy|Hyx]; [|exact Hyx].
        apply cmp_R, Qle_bool_iff in Hxy. congruence. }
      constructor; [exact IH|].
      rewrite (sort_insert_perm x l). constructor; assumption.
Qed.

Lemma sort_sorted (l : list A) : StronglySorted R (JS.sort cmp l).
Proof.
  induction l as [|x l IH]; simpl; [constructor|].
  now apply sort_insert_sorted.
Qed.

Lemma sort_In (x : A) (l : list A) : In x (JS.sort cmp l) <-> In x l.
Proof.
  split; apply Permutation_in; [|symmetry]; apply sort_perm.
Qed.
End SortFacts.

(** Ascending order of a numeric key, as produced by the comparator
    [key a - key b]. *)
Lemma sort_ascending {A : Type} (key : A -> Q) (l : list A) :
  StronglySorted (fun a b => (key a <= key b)%Q)
    (JS.sort (fun a b => (key a - key b)%Q) l).
Proof.
  apply sort_sorted.
  - intros a b. split; intros H; lra.
  - intros a b. destruct (Qlt_le_dec (key a) (key b)); [left; lra|right; lra].
  - intros a b c H1 H2. lra.
Qed.

(** Descending order, as produced by the comparator [key b - key a]. *)
Lemma sort_descending {A : Type} (key : A -> Q) (l : list A) :
  StronglySorted (fun a b => (key b <= key a)%Q)
    (JS.sort (fun a b => (key b - key a)%Q) l).
Proof.
  apply sort_sorted.
  - intros a b. split; intros H; lra.
  - intros a b. destruct (Qlt_le_dec (key a) (key b)); [right; lra|left; lra].
  - intros a b c H1 H2. lra.
Qed.

(** ** More on [Array.prototype.sort] *)

Section SortStable.
Context {A : Type} (cmp : A -> A -> Q).

Lemma sort_insert_filter_out (p : A -> bool) (x : A) (l : list A) :
  p x = false -> List.filter p (JS.sort_insert cmp x l) = List.filter p l.
Proof.
  intros Hx. induction l as [|y l IH]; simpl.
  - now rewrite Hx.
  - destruct (Qle_bool (cmp x y) 0); simpl.
    + now rewrite Hx.
    + now rewrite IH.
Qed.

Lemma sort_insert_filter_in (p : A -> bool) (x : A) (l : list A) :
  (forall a b, p a = true -> p b = true -> (cmp a b <= 0)%Q) ->
  p x = true -> List.filter p (JS.sort_insert cmp x l) = x :: List.filter p l.
Proof.
  intros Hp Hx. induction l as [|y l IH]; simpl.
  - now rewrite Hx.
  - destruct (Qle_bool (cmp x y) 0) eqn:E; simpl.
    + now rewrite Hx.
    + destruct (p y) eqn:Hy.
      * apply Hp with (a := x) in Hy; [|exact Hx].
        apply Qle_bool_iff in Hy. congruence.
      * exact IH.
Qed.

Lemma sort_filter_class (p : A -> bool) (l : list A) :
  (forall a b, p a = true -> p b = true -> (cmp a b <= 0)%Q) ->
  List.filter p (JS.sort cmp l) = List.filter p l.
Proof.
  intros Hp. induction l as [|x l IH]; simpl; [reflexivity|].
  destruct (p x) eqn:Hx.
  - rewrite sort_insert_filter_in by assumption. now rewrite IH.
  - rewrite sort_insert_filter_out by assumption. exact IH.
Qed.

Lemma sort_insert_least (x : A) (l : list A) :
  (forall y, head l = Some y -> (cmp x y <= 0)%Q) ->
  JS.sort_insert cmp x l = x :: l.
Proof.
  destruct l as [|y l]; simpl; [reflexivity|].
  intros H. specialize (H y eq_refl). apply Qle_bool_iff in H. now rewrite H.
Qed.

Lemma sort_sorted_fixed (l : list A) :
  StronglySorted (fun a b => (cmp a b <= 0)%Q) l -> JS.sort cmp l = l.
Proof.
  induction 1 as [|x l Hs IH Hall]; simpl; [reflexivity|].
  rewrite IH. apply sort_insert_least.
  intros y Hy. destruct l as [|z l]; [discriminate|].
  injection Hy as <-. now inversion Hall.
Qed.

Lemma sort_map {B : Type} (cmp' : B -> B -> Q) (f : A -> B) (l : list A) :
  (forall a b, cmp' (f a) (f b) = cmp a b) ->
  JS.sort cmp' (List.map f l) = List.map f (JS.sort cmp l).
Proof.
  intros Hf.
  assert (Hins : forall x l', JS.sort_insert cmp' (f x) (List.map f l')
                              = List.map f (JS.sort_insert cmp x l')).
  { intros x l'. induction l' as [|y l' IH]; simpl; [reflexivity|].
    rewrite Hf. destruct (Qle_bool (cmp x y) 0); simpl; [reflexivity|].
    now rewrite IH. }
  induction l as [|x l IH]; simpl; [reflexivity|].
  now rewrite IH, Hins.
Qed.
End SortStable.

Lemma StronglySorted_weaken {A : Type} (R S : A -> A -> Prop) (l : list A) :
  (forall a b, R a b -> S a b) -> StronglySorted R l -> StronglySorted S l.
Proof.
  intros HRS. induction 1 as [|x l Hs IH Hall]; constructor; [exact IH|].
  eapply Forall_impl; [exact Hall|]. intros y; apply HRS.
Qed.

Lemma sort_descending_fixed {A : Type} (key : A -> Q) (l : list A) :
  JS.sort (fun a b => (key b - key a)%Q) (JS.sort (fun a b => (key b - key a)%Q) l)
  = JS.sort (fun a b => (key b - key a)%Q) l.
Proof.
  apply sort_sorted_fixed.
  eapply StronglySorted_weaken; [|apply (sort_descending key l)].
  intros a b H; simpl in *; lra.
Qed.

(** ** The stages of [performAnalysis] *)

Section Stages.
Variable startTime : Q.

Let step := fun (acc : AnalysisReport) (entry : Entry) =>
              analyzeRequest entry startTime acc.

Lemma analyzeAll_bottlenecks (entries : list Entry) (r : AnalysisReport) :
  bottlenecks (fold_left step entries r)
  = bottlenecks r ++ flat_map (fun e => issuesOf e startTime) entries.
Proof.
  revert r; induction entries as [|e es IH]; intros r; simpl.
  - now rewrite app_nil_r.
  - rewrite IH. unfold step.
    rewrite analyzeRequest_bottlenecks. now rewrite <- app_assoc.
Qed.

Lemma analyzeAll_resourceBreakdown (entries : list Entry) (r : AnalysisReport) :
  resourceBreakdown (fold_left step entries r)
  = breakdownOf entries (resourceBreakdown r).
Proof.
  unfold breakdownOf.
  revert r; induction entries as [|e es IH]; intros r; simpl; [reflexivity|].
  now rewrite IH.
Qed.

Lemma analyzeAll_unchanged (entries : list Entry) (r : AnalysisReport) :
  totalLoadTime (fold_left step entries r) = totalLoadTime r /\
  criticalPathItems (fold_left step entries r) = criticalPathItems r /\
  performanceGaps (fold_left step entries r) = performanceGaps r.
Proof.
  revert r; induction entries as [|e es IH]; intros r; simpl; [auto|].
  destruct (IH (step r e)) as (-> & -> & ->). auto.
Qed.
End Stages.

Lemma findPerformanceGaps_performanceGaps (entries : list Entry) (startTime : Q)
    (r : AnalysisReport) :
  performanceGaps (findPerformanceGaps entries startTime r)
  = performanceGaps r ++ timelineGaps (timelineOf entries startTime)
      ++ targetFinding (totalLoadTime r).
Proof.
  unfold findPerformanceGaps, targetFinding. simpl.
  destruct (Qgt_bool (totalLoadTime r) targetLoadTime); simpl.
  - now rewrite <- app_assoc.
  - now rewrite app_nil_r.
Qed.

(** The report of a non-empty trace, field by field. *)
Lemma performAnalysis_cons (first : Entry) (rest : list Entry) (r : AnalysisReport) :
  let entries := first :: rest in
  let startTime := getTime first in
  exists r' : AnalysisReport,
    performAnalysis entries r = JS.Normal r' /\
    totalLoadTime r' = (spec_maxEnd first rest - startTime)%Q /\
    bottlenecks r'
    = JS.sort (fun a b => (b_time b - b_time a)%Q)
        (bottlenecks r ++ flat_map (fun e => issuesOf e startTime) entries) /\
    performanceGaps r'
    = performanceGaps r ++ timelineGaps (timelineOf entries startTime)
        ++ targetFinding (spec_maxEnd first rest - startTime)%Q /\
    criticalPathItems r'
    = criticalPathItems r
        ++ match List.find isHtmlDocument entries with
           | Some htmlEntry => [htmlItem htmlEntry]
           | None => []
           end
        ++ List.map criticalItem (take 5 (criticalResources entries)) /\
    resourceBreakdown r'
    = finishStat <$> breakdownOf entries (resourceBreakdown r).
Proof.
  intros entries startTime. eexists. split; [reflexivity|].
  cbn [performAnalysis identifyBottlenecks analyzeResourceBreakdown
       set_bottlenecks set_resourceBreakdown
       totalLoadTime bottlenecks performanceGaps criticalPathItems resourceBreakdown].
  set (r1 := set_totalLoadTime _ r).
  set (r2 := fold_left _ entries r1).
  destruct (analyzeAll_unchanged startTime entries r1) as (Ht & Hc & Hg).
  change (fold_left _ entries r1) with r2 in Ht, Hc, Hg.
  assert (Hfind : forall x, totalLoadTime (findPerformanceGaps entries startTime x)
                            = totalLoadTime x).
  { intros x. unfold findPerformanceGaps.
    destruct (Qgt_bool _ _); reflexivity. }
  assert (Hfindb : forall x, bottlenecks (findPerformanceGaps entries startTime x)
                             = bottlenecks x).
  { intros x. unfold findPerformanceGaps.
    destruct (Qgt_bool _ _); reflexivity. }
  assert (Hfindc : forall x, criticalPathItems (findPerformanceGaps entries startTime x)
                             = criticalPathItems x).
  { intros x. unfold findPerformanceGaps.
    destruct (Qgt_bool _ _); reflexivity. }
  assert (Hfindr : forall x, resourceBreakdown (findPerformanceGaps entries startTime x)
                             = resourceBreakdown x).
  { intros x. unfold findPerformanceGaps.
    destruct (Qgt_bool _ _); reflexivity. }
  rewrite Hfind, Hfindb, Hfindc, Hfindr, findPerformanceGaps_performanceGaps.
  cbn [identifyCriticalPath set_criticalPathItems
       totalLoadTime bottlenecks performanceGaps criticalPathItems resourceBreakdown].
  rewrite Ht, Hc, Hg.
  unfold r2. rewrite analyzeAll_bottlenecks, analyzeAll_resourceBreakdown.
  repeat split; reflexivity.
Qed.

(** ** The empty trace *)

(** C2: the code fails the claim at the empty entry list.
    [performAnalysis] reads [entries[0].startedDateTime] without a test of
    the length and throws, from any report; [analyzeHARFile] ends with that
    failure and leaves no report.  The second analyzer of the repository
    guards the same computation with [entries.length > 0] and gives the
    total 0 there, as the claim says. *)
Theorem C2_empty_trace_throws (r : AnalysisReport) :
  performAnalysis [] r
  = JS.Throw "Cannot read properties of undefined (reading 'startedDateTime')" /\
  analyzeHARFile []
  = JS.Throw "Cannot read properties of undefined (reading 'startedDateTime')" /\
  (forall r' : AnalysisReport, analyzeHARFile [] <> JS.Normal r') /\
  analyzeHAR_totalTime [] = 0%Q.
Proof.
  repeat split. intros r' H. discriminate H.
Qed.

(** ** Maxima and minima of timestamps *)

Lemma Qmax_cases (x y : Q) : Qmax x y = x \/ Qmax x y = y.
Proof.
  unfold Qmax, GenericMinMax.gmax. destruct (x ?= y)%Q; auto.
Qed.

Lemma fold_Qmax_init_le (l : list Q) (x : Q) : (x <= fold_left Qmax l x)%Q.
Proof.
  revert x; induction l as [|y l IH]; intros x; simpl; [apply Qle_refl|].
  eapply Qle_trans; [apply Q.le_max_l|apply IH].
Qed.

Lemma fold_Qmax_upper (l : list Q) (x y : Q) :
  In y l -> (y <= fold_left Qmax l x)%Q.
Proof.
  revert x; induction l as [|z l IH]; intros x; simpl; [intros []|].
  intros [->|Hin]; [|now apply IH].
  eapply Qle_trans; [apply Q.le_max_r|apply fold_Qmax_init_le].
Qed.

Lemma fold_Qmax_attained (l : list Q) (x : Q) :
  fold_left Qmax l x = x \/ In (fold_left Qmax l x) l.
Proof.
  revert x; induction l as [|z l IH]; intros x; simpl; [auto|].
  destruct (IH (Qmax x z)) as [H|H]; [|auto].
  rewrite H. destruct (Qmax_cases x z) as [E|E]; rewrite E; auto.
Qed.

Lemma spec_maxEnd_upper (first : Entry) (rest : list Entry) (e : Entry) :
  In e (first :: rest) -> (endOf e <= spec_maxEnd first rest)%Q.
Proof.
  unfold spec_maxEnd. intros [<-|Hin].
  - apply fold_Qmax_init_le.
  - apply fold_Qmax_upper. now apply in_map.
Qed.

Lemma spec_maxEnd_attained (first : Entry) (rest : list Entry) :
  exists e, In e (first :: rest) /\ spec_maxEnd first rest = endOf e.
Proof.
  unfold spec_maxEnd.
  destruct (fold_Qmax_attained (List.map endOf rest) (endOf first)) as [H|H].
  - exists first. simpl; auto.
  - apply in_map_iff in H. destruct H as [e [He Hin]].
    exists e. simpl; auto.
Qed.

(** ** The timeline and its gaps *)

Lemma timelineOf_In (entries : list Entry) (startTime : Q) (it : TimelineItem) :
  In it (timelineOf entries startTime) <->
  exists e, In e entries /\ it = timelineItem startTime e.
Proof.
  unfold timelineOf. rewrite sort_In, in_map_iff.
  split; intros [e [H1 H2]]; exists e; auto.
Qed.

Lemma timelineGaps_In (timeline : list TimelineItem) (g : PerformanceGap) :
  In g (timelineGaps timeline) <->
  exists (i : nat) (prev next : TimelineItem),
    timeline !! i = Some prev /\ timeline !! S i = Some next /\
    (50 < t_start next - t_end prev)%Q /\ g = gapBetween prev next.
Proof.
  unfold timelineGaps. rewrite in_flat_map. split.
  - intros [i [Hi Hg]]. apply in_seq in Hi.
    destruct i as [|j]; [lia|].
    unfold gapAt in Hg. replace (S j - 1)%nat with j in Hg by lia.
    destruct (timeline !! j) as [prev|] eqn:Ep; [|destruct Hg].
    destruct (timeline !! S j) as [next|] eqn:En; [|destruct Hg].
    destruct (Qgt_bool _ 50) eqn:E; [|destruct Hg].
    apply Qgt_bool_spec in E. destruct Hg as [<-|[]].
    exists j, prev, next. auto.
  - intros (j & prev & next & Hp & Hn & Hgap & ->).
    exists (S j). split.
    + apply in_seq. apply lookup_lt_Some in Hn. lia.
    + unfold gapAt. replace (S j - 1)%nat with j by lia.
      rewrite Hp, Hn. apply Qgt_bool_spec in Hgap. rewrite Hgap. simpl; auto.
Qed.

Lemma lookup_In {A : Type} (l : list A) (i : nat) (x : A) :
  l !! i = Some x -> In x l.
Proof.
  intros H. apply list_elem_of_In. eapply list_elem_of_lookup_2. exact H.
Qed.

Lemma targetFinding_In (t : Q) (g : PerformanceGap) :
  In g (targetFinding t) <->
  g = TargetExceeded (t - targetLoadTime)%Q /\ (targetLoadTime < t)%Q.
Proof.
  unfold targetFinding. rewrite In_if_singleton, Qgt_bool_spec. reflexivity.
Qed.

Lemma gapAt_cons (p : TimelineItem) (timeline : list TimelineItem) (i : nat) :
  (1 <= i)%nat -> gapAt (p :: timeline) (S i) = gapAt timeline i.
Proof.
  intros Hi. destruct i as [|j]; [lia|]. unfold gapAt.
  replace (S (S j) - 1)%nat with (S j) by lia.
  replace (S j - 1)%nat with j by lia.
  reflexivity.
Qed.

Lemma flat_map_gapAt_cons (p : TimelineItem) (timeline : list TimelineItem) (a n : nat) :
  (1 <= a)%nat ->
  flat_map (gapAt (p :: timeline)) (seq (S a) n) = flat_map (gapAt timeline) (seq a n).
Proof.
  revert a; induction n as [|n IH]; intros a Ha; [reflexivity|].
  cbn [seq flat_map]. rewrite gapAt_cons by exact Ha. rewrite IH by lia. reflexivity.
Qed.

Lemma timelineGaps_cons (p n : TimelineItem) (l : list TimelineItem) :
  timelineGaps (p :: n :: l)
  = (if Qgt_bool (t_start n - t_end p) 50 then [gapBetween p n] else [])
      ++ timelineGaps (n :: l).
Proof.
  unfold timelineGaps.
  replace (List.length (p :: n :: l) - 1)%nat with (S (List.length l)) by (simpl; lia).
  replace (List.length (n :: l) - 1)%nat with (List.length l) by (simpl; lia).
  cbn [seq flat_map]. rewrite flat_map_gapAt_cons by lia. reflexivity.
Qed.

(** The gaps of a timeline, read pair by pair along the timeline. *)
Lemma timelineGaps_pairs (timeline : list TimelineItem) :
  timelineGaps timeline
  = flat_map
      (fun pn : TimelineItem * TimelineItem =>
         if Qgt_bool (t_start (snd pn) - t_end (fst pn)) 50
         then [gapBetween (fst pn) (snd pn)] else [])
      (combine timeline (tail timeline)).
Proof.
  induction timeline as [|p timeline IH]; [reflexivity|].
  destruct timeline as [|n l]; [reflexivity|].
  rewrite timelineGaps_cons, IH. reflexivity.
Qed.

(** C3: [findPerformanceGaps] works on the entries, each with its start
    offset [start - origin] and its end offset [start - origin + time],
    sorted by ascending start offset, entries of equal start in the order
    of the trace.  Going along that order it appends, for each pair of
    neighbours whose distance [next.start - previous.end] exceeds 50, and
    for no other pair, one object that runs from [previous.end] to
    [next.start], has the distance as its duration, and is marked critical
    when the distance exceeds 200 and minor otherwise; so no gap has a
    duration of 50 or less.  Nothing else is appended but the object of
    type ["Target Exceeded"]. *)
Theorem C3_gap_detection (entries : list Entry) (startTime : Q) (r : AnalysisReport) :
  let timeline := timelineOf entries startTime in
  let distance := fun prev next : TimelineItem => (t_start next - t_end prev)%Q in
  (forall e,
     timelineItem startTime e
     = {| t_start := (getTime e - startTime)%Q;
          t_end := (getTime e - startTime + time e)%Q;
          t_url := url e;
          t_time := time e |}) /\
  Permutation timeline (List.map (timelineItem startTime) entries) /\
  StronglySorted (fun a b => (t_start a <= t_start b)%Q) timeline /\
  (forall c : Q,
     List.filter (fun it => Qeq_bool (t_start it) c) timeline
     = List.filter (fun it => Qeq_bool (t_start it) c)
         (List.map (timelineItem startTime) entries)) /\
  performanceGaps (findPerformanceGaps entries startTime r)
  = performanceGaps r ++ timelineGaps timeline ++ targetFinding (totalLoadTime r) /\
  timelineGaps timeline
  = flat_map
      (fun pn : TimelineItem * TimelineItem =>
         if Qgt_bool (distance (fst pn) (snd pn)) 50
         then [gapBetween (fst pn) (snd pn)] else [])
      (combine timeline (tail timeline)) /\
  (forall a b : Q, Qgt_bool a b = true <-> (b < a)%Q) /\
  (forall prev next : TimelineItem,
     exists suggestion : string,
       gapBetween prev next
       = TimelineGap (t_end prev) (t_start next) (distance prev next)
           (JS.substring0 50 (t_url prev) +:+ "...")
           (JS.substring0 50 (t_url next) +:+ "...") suggestion /\
       ((200 < distance prev next)%Q ->
          suggestion = "Critical gap - investigate waterfall") /\
       ((distance prev next <= 200)%Q ->
          suggestion = "Minor optimization opportunity")) /\
  (forall g, In g (timelineGaps timeline) <->
     exists (i : nat) (prev next : TimelineItem),
       timeline !! i = Some prev /\ timeline !! S i = Some next /\
       (50 < distance prev next)%Q /\ g = gapBetween prev next) /\
  (forall g, In g (timelineGaps timeline) ->
     exists (i : nat) (prev next : TimelineItem) (suggestion : string),
       timeline !! i = Some prev /\ timeline !! S i = Some next /\
       g = TimelineGap (t_end prev) (t_start next) (t_start next - t_end prev)
             (JS.substring0 50 (t_url prev) +:+ "...")
             (JS.substring0 50 (t_url next) +:+ "...") suggestion /\
       (50 < t_start next - t_end prev)%Q /\
       ((200 < t_start next - t_end prev)%Q ->
          suggestion = "Critical gap - investigate waterfall") /\
       ((t_start next - t_end prev <= 200)%Q ->
          suggestion = "Minor optimization opportunity")) /\
  (forall g, In g (targetFinding (totalLoadTime r)) ->
     exists excess, g = TargetExceeded excess).
Proof.
  intros timeline distance.
  assert (Hshape : forall prev next : TimelineItem,
            exists suggestion : string,
              gapBetween prev next
              = TimelineGap (t_end prev) (t_start next) (distance prev next)
                  (JS.substring0 50 (t_url prev) +:+ "...")
                  (JS.substring0 50 (t_url next) +:+ "...") suggestion /\
              ((200 < distance prev next)%Q ->
                 suggestion = "Critical gap - investigate waterfall") /\
              ((distance prev next <= 200)%Q ->
                 suggestion = "Minor optimization opportunity")).
  { intros prev next. unfold gapBetween, distance. eexists. split; [reflexivity|].
    split.
    - intros H. apply Qgt_bool_spec in H. now rewrite H.
    - intros H. apply Qgt_bool_false in H. now rewrite H. }
  split; [reflexivity|].
  split; [apply sort_perm|].
  split; [apply (sort_ascending t_start)|].
  split.
  { intros c. apply sort_filter_class.
    intros a b Ha Hb. apply Qeq_bool_iff in Ha, Hb. lra. }
  split; [apply findPerformanceGaps_performanceGaps|].
  split; [apply timelineGaps_pairs|].
  split; [apply Qgt_bool_spec|].
  split; [exact Hshape|].
  split; [apply timelineGaps_In|].
  split.
  - intros g Hg. apply timelineGaps_In in Hg.
    destruct Hg as (i & prev & next & Hp & Hn & Hgap & ->).
    destruct (Hshape prev next) as (suggestion & Heq & Hcrit & Hminor).
    exists i, prev, next, suggestion. auto 10.
  - intros g Hg. apply targetFinding_In in Hg. destruct Hg as [-> _]. eauto.
Qed.

Lemma C3_gap_detection_witness :
  timelineGaps (timelineOf trace_gap 1000)
  = [TimelineGap 100 400 300 "http://localhost:3000/..."
       "http://localhost:3000/a.css..." "Critical gap - investigate waterfall"].
Proof.
  destruct (C3_gap_detection trace_gap 1000 initialReport)
    as (_ & _ & _ & _ & _ & Hpairs & _ & Hshape & _).
  rewrite Hpairs.
  destruct (Hshape
              (timelineItem 1000 (entry_ 1000 100 "http://localhost:3000/" "text/html" 20480))
              (timelineItem 1000
                 (entry_ 1400 30 "http://localhost:3000/a.css" "text/css" 5120)))
    as (suggestion & Heq & Hcrit & _).
  assert (Hs : suggestion = "Critical gap - investigate waterfall")
    by (apply Hcrit; reflexivity).
  subst suggestion.
  change (timelineOf trace_gap 1000)
    with [timelineItem 1000 (entry_ 1000 100 "http://localhost:3000/" "text/html" 20480);
          timelineItem 1000
            (entry_ 1400 30 "http://localhost:3000/a.css" "text/css" 5120)].
  cbn [tail combine flat_map fst snd]. rewrite Heq.
  reflexivity.
Defined.

(** ** Total load time and time origin *)

(** The time origin of [performAnalysis]: for a non-empty trace the total
    load time is the largest end timestamp minus the start timestamp of the
    first entry of the list, and the start offsets recorded in the
    bottlenecks and in the gaps are start timestamps minus the start
    timestamp of the first entry. *)
Lemma time_origin_is_first_entry (first : Entry) (rest : list Entry) :
  let entries := first :: rest in
  exists r : AnalysisReport,
    performAnalysis entries initialReport = JS.Normal r /\
    totalLoadTime r = (spec_maxEnd first rest - getTime first)%Q /\
    (forall e, In e entries -> (endOf e <= spec_maxEnd first rest)%Q) /\
    (exists e, In e entries /\ spec_maxEnd first rest = endOf e) /\
    (forall b, In b (bottlenecks r) ->
       exists e, In e entries /\ b_time b = time e /\
                 b_startTime b = (getTime e - getTime first)%Q) /\
    (forall gs ge gd before after suggestion,
       In (TimelineGap gs ge gd before after suggestion) (performanceGaps r) ->
       exists prev next,
         In prev entries /\ In next entries /\
         gs = (getTime prev - getTime first + time prev)%Q /\
         ge = (getTime next - getTime first)%Q).
Proof.
  intros entries.
  destruct (performAnalysis_cons first rest initialReport)
    as (r & Hr & Ht & Hb & Hg & _ & _).
  exists r. split; [exact Hr|]. split; [exact Ht|].
  split; [intros e; apply spec_maxEnd_upper|].
  split; [apply spec_maxEnd_attained|].
  split.
  - intros b Hin. rewrite Hb in Hin. apply sort_In in Hin.
    simpl bottlenecks in Hin. rewrite app_nil_l in Hin.
    apply in_flat_map in Hin. destruct Hin as [e [He Hi]].
    exists e. split; [exact He|].
    apply issuesOf_In in Hi. destruct Hi as [[-> _]|[-> _]]; split; reflexivity.
  - intros gs ge gd before after suggestion Hin. rewrite Hg in Hin.
    simpl performanceGaps in Hin. rewrite app_nil_l in Hin.
    apply in_app_iff in Hin. destruct Hin as [Hin|Hin].
    + apply timelineGaps_In in Hin.
      destruct Hin as (i & prev & next & Hp & Hn & _ & Heq).
      apply lookup_In, timelineOf_In in Hp, Hn.
      destruct Hp as [p [Hp ->]]. destruct Hn as [n [Hn ->]].
      exists p, n. unfold gapBetween in Heq. injection Heq as -> -> _ _ _ _.
      auto.
    + apply targetFinding_In in Hin. destruct Hin as [Hin _]. discriminate Hin.
Qed.

(** C1: the code fails the claim on a trace whose first entry is not the
    earliest one.  For the two requests 1100ms..1110ms and 1000ms..1010ms,
    in this order, the claim gives the total 1110 - 1000 = 110 and the
    offsets 100 and 0; [performAnalysis] takes the start of [entries[0]]
    as origin and stores the total 10 and, for the earliest request, the
    offset -100.  The second analyzer of the repository computes, on every
    non-empty trace, the largest end minus the smallest start that the
    claim states, and gives 110 here. *)
Theorem C1_total_load_time_failing_input :
  (forall first rest,
     analyzeHAR_totalTime (first :: rest) = spec_totalLoadTime first rest) /\
  exists r : AnalysisReport,
    performAnalysis trace_unordered initialReport = JS.Normal r /\
    (totalLoadTime r == 10)%Q /\
    (analyzeHAR_totalTime trace_unordered == 110)%Q /\
    ~ (totalLoadTime r == analyzeHAR_totalTime trace_unordered)%Q /\
    (exists it, In it (timelineOf trace_unordered 1100) /\
                t_url it = "http://localhost:3000/a" /\ (t_start it == -100)%Q).
Proof.
  split; [reflexivity|].
  eexists. split; [reflexivity|].
  split; [vm_compute; reflexivity|].
  split; [vm_compute; reflexivity|].
  split; [vm_compute; discriminate|].
  exists (timelineItem 1100 (entry_ 1000 10 "http://localhost:3000/a" "text/plain" 1)).
  split; [vm_compute; auto|]. split; [reflexivity|vm_compute; reflexivity].
Qed.

(** ** Bottlenecks *)

(** C4: the bottlenecks of the report are in non-increasing order of
    their [time], which is the time of the entry they were pushed for;
    they are the objects pushed for the entries: one for each entry whose
    time exceeds 100 (slow request), one for each entry whose size exceeds
    500 KiB (large file), and no other; an entry over both thresholds
    contributes two of them, one of each kind. *)
Theorem C4_bottlenecks_ranked (first : Entry) (rest : list Entry) :
  let entries := first :: rest in
  let startTime := getTime first in
  exists r : AnalysisReport,
    performAnalysis entries initialReport = JS.Normal r /\
    (forall e s issue,
       bottleneckOf e s issue
       = {| b_url := shortUrl (url e);
            b_type := resourceTypeOf (contentTypeOf e);
            b_time := time e;
            b_size := formatBytes (sizeOf e);
            b_startTime := (getTime e - s)%Q;
            b_issue := issue |}) /\
    StronglySorted (fun a b => (b_time b <= b_time a)%Q) (bottlenecks r) /\
    Permutation (bottlenecks r) (flat_map (fun e => issuesOf e startTime) entries) /\
    (forall b, In b (bottlenecks r) ->
       exists e, In e entries /\ b_time b = time e /\
         ((b = bottleneckOf e startTime "Slow request" /\
           b_issue b = "Slow request" /\ (100 < time e)%Q) \/
          (b = bottleneckOf e startTime "Large file size" /\
           b_issue b = "Large file size" /\ (500 * 1024 < sizeOf e)%Z))) /\
    (forall e, In e entries ->
       ((100 < time e)%Q ->
          In (bottleneckOf e startTime "Slow request") (bottlenecks r)) /\
       ((500 * 1024 < sizeOf e)%Z ->
          In (bottleneckOf e startTime "Large file size") (bottlenecks r))) /\
    (forall e, In e entries -> (100 < time e)%Q -> (500 * 1024 < sizeOf e)%Z ->
       issuesOf e startTime
       = [bottleneckOf e startTime "Slow request";
          bottleneckOf e startTime "Large file size"]) /\
    (rest = [] -> (100 < time first)%Q -> (500 * 1024 < sizeOf first)%Z ->
       bottlenecks r
       = [bottleneckOf first startTime "Slow request";
          bottleneckOf first startTime "Large file size"]).
Proof.
  intros entries startTime.
  destruct (performAnalysis_cons first rest initialReport)
    as (r & Hr & _ & Hb & _ & _ & _).
  simpl bottlenecks in Hb. rewrite app_nil_l in Hb.
  fold entries startTime in Hb.
  assert (Hboth : forall e, (100 < time e)%Q -> (500 * 1024 < sizeOf e)%Z ->
            issuesOf e startTime
            = [bottleneckOf e startTime "Slow request";
               bottleneckOf e startTime "Large file size"]).
  { intros e Ht Hs. unfold issuesOf.
    apply Qgt_bool_spec in Ht. apply Z.ltb_lt in Hs. now rewrite Ht, Hs. }
  exists r. split; [exact Hr|]. split; [reflexivity|]. rewrite Hb.
  split; [apply (sort_descending b_time)|].
  split; [apply sort_perm|].
  split; [|split; [|split]].
  - intros b Hin. apply sort_In, in_flat_map in Hin.
    destruct Hin as [e [He Hi]]. exists e. split; [exact He|].
    apply issuesOf_In in Hi. destruct Hi as [[-> Ht]|[-> Hs]].
    + split; [reflexivity|]. left. auto.
    + split; [reflexivity|]. right. auto.
  - intros e He. split; intros H; apply sort_In, in_flat_map; exists e;
      (split; [exact He|]); apply issuesOf_In; auto.
  - intros e _. apply Hboth.
  - intros -> Ht Hs. subst entries. simpl flat_map. rewrite app_nil_r.
    rewrite Hboth by assumption. simpl.
    assert (E : Qle_bool (time first - time first) 0 = true)
      by (apply Qle_bool_iff; lra).
    now rewrite E.
Qed.

Lemma C4_bottlenecks_witness :
  exists r : AnalysisReport,
    performAnalysis trace_image initialReport = JS.Normal r /\
    List.map (fun b => (b_issue b, b_time b, b_size b)) (bottlenecks r)
    = [("Slow request", 150%Q, "600 KB"); ("Large file size", 150%Q, "600 KB")].
Proof.
  destruct (C4_bottlenecks_ranked
              (entry_ 1000 150 "http://localhost:3000/big.png" "image/png" (600 * 1024)) [])
    as (r & Hr & Hfields & _ & _ & _ & _ & _ & H).
  exists r. split; [exact Hr|].
  rewrite H.
  - rewrite !Hfields. vm_compute. reflexivity.
  - reflexivity.
  - reflexivity.
  - reflexivity.
Defined.

(** ** The resource breakdown *)

Lemma count_statOf (l : list Entry) (st : ResourceStat) :
  count (statOf l st) = (count st + Z.of_nat (List.length l))%Z.
Proof.
  unfold statOf. revert st; induction l as [|e l IH]; intros st.
  - simpl. lia.
  - cbn [fold_left List.length]. rewrite IH. simpl count. lia.
Qed.

Lemma avgTime_statOf (l : list Entry) (st : ResourceStat) :
  l <> [] ->
  avgTime (statOf l st)
  = (totalTime (statOf l st) / inject_Z (count (statOf l st)))%Q.
Proof.
  unfold statOf. revert st; induction l as [|e l IH]; intros st Hne; [congruence|].
  cbn [fold_left]. destruct l as [|e' l]; [reflexivity|].
  apply IH. discriminate.
Qed.

Lemma entriesOfType_nil (ty : string) (entries : list Entry) :
  entriesOfType ty entries = [] <->
  forall e, In e entries -> resourceTypeOf (contentTypeOf e) <> ty.
Proof.
  unfold entriesOfType. induction entries as [|e es IH]; simpl.
  - split; [intros _ e []|reflexivity].
  - destruct (String.eqb_spec (resourceTypeOf (contentTypeOf e)) ty) as [Heq|Hne].
    + split; [discriminate|]. intros H. exfalso. apply (H e); auto.
    + rewrite IH. split.
      * intros H x [<-|Hx]; auto.
      * intros H x Hx. apply H. auto.
Qed.

(** The statistics stored for a type: none when no entry has the type,
    else the accumulation over the entries of the type, in their order. *)
Lemma breakdownOf_lookup (entries : list Entry) (rb : gmap string ResourceStat)
    (ty : string) :
  breakdownOf entries rb !! ty
  = match entriesOfType ty entries with
    | [] => rb !! ty
    | l => Some (statOf l (default emptyStat (rb !! ty)))
    end.
Proof.
  unfold breakdownOf, entriesOfType, statOf.
  revert rb; induction entries as [|e es IH]; intros rb; [reflexivity|].
  cbn [fold_left List.filter]. rewrite IH.
  destruct (String.eqb_spec (resourceTypeOf (contentTypeOf e)) ty) as [Heq|Hne].
  - rewrite <- Heq, updateBreakdown_lookup_eq. rewrite Heq.
    destruct (List.filter _ es); reflexivity.
  - rewrite updateBreakdown_lookup_ne by assumption. reflexivity.
Qed.

Lemma sumCounts_insert (rb : gmap string ResourceStat) (ty : string) (st : ResourceStat) :
  rb !! ty = None -> sumCounts (<[ty := st]> rb) = (count st + sumCounts rb)%Z.
Proof.
  intros Hnone. unfold sumCounts.
  rewrite map_fold_insert_L; [reflexivity| |exact Hnone].
  intros. lia.
Qed.

Lemma sumCounts_delete (rb : gmap string ResourceStat) (ty : string) (st : ResourceStat) :
  rb !! ty = Some st -> sumCounts rb = (count st + sumCounts (delete ty rb))%Z.
Proof.
  intros Hsome. unfold sumCounts.
  rewrite (map_fold_delete_L _ _ ty st rb); [reflexivity| |exact Hsome].
  intros. lia.
Qed.

Lemma sumCounts_updateBreakdown (ty : string) (sz : Z) (t : Q)
    (rb : gmap string ResourceStat) :
  sumCounts (updateBreakdown ty sz t rb) = (sumCounts rb + 1)%Z.
Proof.
  unfold updateBreakdown. destruct (rb !! ty) as [st|] eqn:E.
  - rewrite (alter_alt_Some _ _ _ _ E), <- insert_delete_eq.
    rewrite sumCounts_insert by apply lookup_delete_eq.
    rewrite (sumCounts_delete rb ty st E). simpl count. lia.
  - rewrite alter_insert_eq, sumCounts_insert by exact E.
    simpl count. lia.
Qed.

Lemma sumCounts_breakdownOf (entries : list Entry) (rb : gmap string ResourceStat) :
  sumCounts (breakdownOf entries rb)
  = (sumCounts rb + Z.of_nat (List.length entries))%Z.
Proof.
  unfold breakdownOf. revert rb; induction entries as [|e es IH]; intros rb.
  - simpl. lia.
  - cbn [fold_left List.length]. rewrite IH, sumCounts_updateBreakdown. lia.
Qed.

Lemma sumCounts_finish (rb : gmap string ResourceStat) :
  sumCounts (finishStat <$> rb) = sumCounts rb.
Proof.
  unfold sumCounts. rewrite map_fold_fmap. reflexivity.
Qed.

(** C8: in the report of a non-empty trace the counts of the resource
    types add up to the number of entries; a type has statistics exactly
    when some entry has that type, and its count is the number of those
    entries, at least 1. *)
Theorem C8_counts_partition_entries (first : Entry) (rest : list Entry) :
  let entries := first :: rest in
  exists r : AnalysisReport,
    performAnalysis entries initialReport = JS.Normal r /\
    sumCounts (resourceBreakdown r) = Z.of_nat (List.length entries) /\
    (forall ty, is_Some (resourceBreakdown r !! ty) <->
       exists e, In e entries /\ resourceTypeOf (contentTypeOf e) = ty) /\
    (forall ty st, resourceBreakdown r !! ty = Some st ->
       count st = Z.of_nat (List.length (entriesOfType ty entries)) /\
       (1 <= count st)%Z).
Proof.
  intros entries.
  destruct (performAnalysis_cons first rest initialReport)
    as (r & Hr & _ & _ & _ & _ & Hrb).
  fold entries in Hrb. simpl resourceBreakdown in Hrb.
  exists r. split; [exact Hr|]. rewrite Hrb.
  split; [|split].
  - rewrite sumCounts_finish, sumCounts_breakdownOf. reflexivity.
  - intros ty. rewrite lookup_fmap, breakdownOf_lookup, lookup_empty.
    destruct (entriesOfType ty entries) as [|e l] eqn:E.
    + split; [intros [x Hx]; discriminate Hx|].
      intros [e [He Hty]]. exfalso.
      exact (proj1 (entriesOfType_nil ty entries) E e He Hty).
    + split; [intros _|intros _; simpl; eauto].
      assert (Hin : In e (entriesOfType ty entries)) by (rewrite E; simpl; auto).
      apply filter_In in Hin. destruct Hin as [Hin Hty].
      apply String.eqb_eq in Hty. eauto.
  - intros ty st. rewrite lookup_fmap, breakdownOf_lookup, lookup_empty.
    destruct (entriesOfType ty entries) as [|e l] eqn:E; [discriminate|].
    simpl. intros [= <-]. simpl count. rewrite count_statOf.
    simpl. lia.
Qed.

Lemma C8_counts_witness :
  exists r : AnalysisReport,
    performAnalysis trace_overlap initialReport = JS.Normal r /\
    sumCounts (resourceBreakdown r) = 2%Z /\
    is_Some (resourceBreakdown r !! "css") /\
    resourceBreakdown r !! "image" = None.
Proof.
  destruct (C8_counts_partition_entries
              (entry_ 1000 50 "http://localhost:3000/" "text/html" 20480)
              [entry_ 1010 30 "http://localhost:3000/a.css" "text/css" 5120])
    as (r & Hr & Hsum & Hdom & _).
  exists r. split; [exact Hr|]. split; [exact Hsum|]. split.
  - apply Hdom. eexists. split; [right; left; reflexivity|reflexivity].
  - destruct (resourceBreakdown r !! "image") as [st|] eqn:E; [|reflexivity].
    exfalso. destruct (proj1 (Hdom "image") (ex_intro _ st E)) as [e [He Hty]].
    destruct He as [<-|[<-|[]]]; vm_compute in Hty; discriminate Hty.
Defined.

(** C9, as the code has it: in the report of a non-empty trace the
    average time of each resource type present is the quotient of its
    total time by its count rounded to the nearest integer, halves upwards;
    it lies within half a millisecond of the quotient. *)
Theorem C9_average_time_rounded (first : Entry) (rest : list Entry) :
  let entries := first :: rest in
  exists r : AnalysisReport,
    performAnalysis entries initialReport = JS.Normal r /\
    (forall ty st, resourceBreakdown r !! ty = Some st ->
       let quotient := (totalTime st / inject_Z (count st))%Q in
       (1 <= count st)%Z /\
       avgTime st = inject_Z (JS.Math_round quotient) /\
       (quotient - (1 # 2) < avgTime st)%Q /\
       (avgTime st <= quotient + (1 # 2))%Q).
Proof.
  intros entries.
  destruct (performAnalysis_cons first rest initialReport)
    as (r & Hr & _ & _ & _ & _ & Hrb).
  fold entries in Hrb. simpl resourceBreakdown in Hrb.
  exists r. split; [exact Hr|]. rewrite Hrb.
  intros ty st. rewrite lookup_fmap, breakdownOf_lookup, lookup_empty.
  destruct (entriesOfType ty entries) as [|e l] eqn:E; [discriminate|].
  simpl. intros [= <-]. cbv zeta.
  cbn [count totalTime avgTime finishStat].
  change (statOf l (addRequest (sizeOf e) (time e) emptyStat))
    with (statOf (e :: l) emptyStat).
  assert (Hne : e :: l <> []) by discriminate.
  rewrite (avgTime_statOf (e :: l) emptyStat Hne).
  set (q := (totalTime (statOf (e :: l) emptyStat)
             / inject_Z (count (statOf (e :: l) emptyStat)))%Q).
  split; [rewrite count_statOf; simpl; lia|].
  split; [reflexivity|].
  unfold JS.Math_round.
  pose proof (Qfloor_le (q + (1 # 2))) as Hle.
  pose proof (Qlt_floor (q + (1 # 2))) as Hlt.
  rewrite inject_Z_plus in Hlt. change (inject_Z 1) with 1%Q in Hlt.
  set (n := inject_Z (Qfloor (q + (1 # 2)))) in *.
  split; lra.
Qed.

Lemma C9_average_time_witness :
  exists (r : AnalysisReport) (st : ResourceStat),
    performAnalysis trace_average initialReport = JS.Normal r /\
    resourceBreakdown r !! "other" = Some st /\
    avgTime st = inject_Z (JS.Math_round (totalTime st / inject_Z (count st))).
Proof.
  destruct (C9_average_time_rounded
              (entry_ 1000 1 "http://localhost:3000/a" "text/plain" 1)
              [entry_ 1000 2 "http://localhost:3000/b" "text/plain" 1])
    as (r & Hr & H).
  pose proof Hr as Hr'. vm_compute in Hr'. injection Hr' as Hr'.
  assert (Hl : is_Some (resourceBreakdown r !! "other")).
  { rewrite <- Hr'. vm_compute. eauto. }
  destruct Hl as [st Hst].
  exists r, st. split; [exact Hr|]. split; [exact Hst|].
  exact (proj1 (proj2 (H "other" st Hst))).
Defined.

(** C9 as stated fails: two requests of one type taking 1ms and 2ms have
    the quotient 3/2 and the stored average 2. *)
Lemma C9_average_time_counterexample :
  exists (r : AnalysisReport) (st : ResourceStat),
    performAnalysis trace_average initialReport = JS.Normal r /\
    resourceBreakdown r !! "other" = Some st /\
    (totalTime st / inject_Z (count st) == 3 # 2)%Q /\
    (avgTime st == 2)%Q /\
    ~ (avgTime st == totalTime st / inject_Z (count st))%Q.
Proof.
  eexists. eexists. split; [reflexivity|].
  split; [vm_compute; reflexivity|].
  split; [vm_compute; reflexivity|].
  split; [vm_compute; reflexivity|].
  vm_compute. discriminate.
Qed.

(** ** The critical path *)

Lemma find_split {A : Type} (f : A -> bool) (l : list A) (x : A) :
  List.find f l = Some x ->
  exists before after,
    l = before ++ x :: after /\ f x = true /\
    forall y, In y before -> f y = false.
Proof.
  induction l as [|a l IH]; simpl; [discriminate|].
  destruct (f a) eqn:E.
  - intros [= <-]. exists [], l. repeat split; [exact E|intros y []].
  - intros H. destruct (IH H) as (before & after & -> & Hx & Hb).
    exists (a :: before), after. repeat split; [exact Hx|].
    intros y [<-|Hy]; auto.
Qed.

Lemma isHtmlDocument_includes (e : Entry) :
  isHtmlDocument e = JS.includes (contentTypeOf e) "text/html".
Proof.
  unfold isHtmlDocument, contentTypeOf. destruct (mimeType e); reflexivity.
Qed.

Lemma isHtmlDocument_class (e : Entry) :
  isHtmlDocument e = true <-> resourceTypeOf (contentTypeOf e) = "html".
Proof.
  rewrite isHtmlDocument_includes. unfold resourceTypeOf.
  destruct (JS.includes (contentTypeOf e) "text/html"); [tauto|].
  repeat (match goal with |- context [if ?c then _ else _] => destruct c end);
    split; discriminate.
Qed.

Lemma isCriticalResource_spec (e : Entry) :
  isCriticalResource e = true <->
  (occursIn "text/css" (contentTypeOf e) \/ occursIn "javascript" (contentTypeOf e)) /\
  ~ occursIn "analytics" (url e) /\ ~ occursIn "tracking" (url e).
Proof.
  unfold isCriticalResource.
  rewrite !andb_true_iff, orb_true_iff, !negb_true_iff,
    !includes_spec, !includes_false.
  tauto.
Qed.

(** C5, as the code has it: when a trace has an entry of class html, the
    critical path of its report starts with the item of the first such
    entry in the order of the list, whatever its start offset; it continues
    with the items of the entries whose content type contains [text/css] or
    [javascript] and whose URL contains neither [analytics] nor [tracking],
    taken in ascending order of [time], entries of equal time in the order
    of the trace, the first 5 of them at most.  Each item carries the time
    of its entry, its size rendered by [formatBytes] and the first 80
    characters of its URL. *)
Theorem C5_critical_path_first_document (first : Entry) (rest : list Entry) :
  let entries := first :: rest in
  (exists e, In e entries /\ resourceTypeOf (contentTypeOf e) = "html") ->
  exists (r : AnalysisReport) (before : list Entry) (document : Entry)
         (after candidates : list Entry),
    performAnalysis entries initialReport = JS.Normal r /\
    entries = before ++ document :: after /\
    resourceTypeOf (contentTypeOf document) = "html" /\
    (forall e, In e before -> resourceTypeOf (contentTypeOf e) <> "html") /\
    criticalPathItems r
    = htmlItem document :: List.map criticalItem (take 5 candidates) /\
    Permutation candidates (List.filter isCriticalResource entries) /\
    StronglySorted (fun a b => (time a <= time b)%Q) candidates /\
    (forall t : Q,
       List.filter (fun e => Qeq_bool (time e) t) candidates
       = List.filter (fun e => Qeq_bool (time e) t)
           (List.filter isCriticalResource entries)) /\
    (forall e, In e candidates <->
       In e entries /\
       (occursIn "text/css" (contentTypeOf e) \/
        occursIn "javascript" (contentTypeOf e)) /\
       ~ occursIn "analytics" (url e) /\ ~ occursIn "tracking" (url e)) /\
    (forall e, isCriticalResource e = true <->
       (occursIn "text/css" (contentTypeOf e) \/
        occursIn "javascript" (contentTypeOf e)) /\
       ~ occursIn "analytics" (url e) /\ ~ occursIn "tracking" (url e)) /\
    (forall e,
       htmlItem e
       = {| c_type := "HTML Document";
            c_url := JS.substring0 80 (url e) +:+ "...";
            c_time := time e;
            c_size := formatBytes (sizeOf e) |}) /\
    (forall e, exists kind : string,
       criticalItem e
       = {| c_type := kind;
            c_url := JS.substring0 80 (url e) +:+ "...";
            c_time := time e;
            c_size := formatBytes (sizeOf e) |} /\
       (occursIn "css" (contentTypeOf e) -> kind = "Critical CSS") /\
       (~ occursIn "css" (contentTypeOf e) -> kind = "Critical JS")).
Proof.
  intros entries [e [He Hclass]].
  destruct (performAnalysis_cons first rest initialReport)
    as (r & Hr & _ & _ & _ & Hc & _).
  fold entries in Hc. simpl criticalPathItems in Hc. rewrite app_nil_l in Hc.
  destruct (List.find isHtmlDocument entries) as [document|] eqn:Ef.
  - destruct (find_split _ _ _ Ef) as (before & after & Hsplit & Hdoc & Hbefore).
    exists r, before, document, after, (criticalResources entries).
    split; [exact Hr|]. split; [exact Hsplit|].
    split; [now apply isHtmlDocument_class|].
    split.
    { intros x Hx Hcl. apply isHtmlDocument_class in Hcl.
      rewrite (Hbefore x Hx) in Hcl. discriminate. }
    split; [exact Hc|].
    split; [apply sort_perm|].
    split; [apply (sort_ascending time)|].
    split.
    { intros t. apply sort_filter_class.
      intros a b Ha Hb. apply Qeq_bool_iff in Ha, Hb. lra. }
    split.
    { intros x. unfold criticalResources.
      rewrite sort_In, filter_In, isCriticalResource_spec. reflexivity. }
    split; [apply isCriticalResource_spec|].
    split; [reflexivity|].
    intros x. unfold criticalItem. eexists. split; [reflexivity|]. split.
    + intros H. apply includes_spec in H. now rewrite H.
    + intros H. apply includes_false in H. now rewrite H.
  - exfalso. apply isHtmlDocument_class in Hclass.
    pose proof (find_none _ _ Ef e He) as Hn. congruence.
Qed.

Lemma C5_critical_path_witness :
  exists r : AnalysisReport,
    performAnalysis trace_overlap initialReport = JS.Normal r /\
    List.map (fun item => (c_type item, c_time item)) (criticalPathItems r)
    = [("HTML Document", 50%Q); ("Critical CSS", 30%Q)].
Proof.
  destruct (C5_critical_path_first_document
              (entry_ 1000 50 "http://localhost:3000/" "text/html" 20480)
              [entry_ 1010 30 "http://localhost:3000/a.css" "text/css" 5120])
    as (r & before & document & after & candidates & Hr & _).
  - eexists. split; [left; reflexivity|reflexivity].
  - exists r. split; [exact Hr|].
    vm_compute in Hr. injection Hr as <-. reflexivity.
Defined.

(** C5 as stated fails on a trace with two documents of which the later
    one comes first in the list: the critical path holds the item of the
    first document of the list, not the item of the document with the
    smallest start offset. *)
Lemma C5_critical_path_counterexample :
  exists (r : AnalysisReport) (early late : Entry),
    performAnalysis trace_two_documents initialReport = JS.Normal r /\
    trace_two_documents = [late; early] /\
    resourceTypeOf (contentTypeOf early) = "html" /\
    resourceTypeOf (contentTypeOf late) = "html" /\
    (getTime early < getTime late)%Q /\
    spec_htmlEntry trace_two_documents = Some early /\
    criticalPathItems r = [htmlItem late] /\
    ~ In (htmlItem early) (criticalPathItems r).
Proof.
  eexists. eexists. eexists.
  split; [reflexivity|]. split; [reflexivity|].
  split; [reflexivity|]. split; [reflexivity|].
  split; [reflexivity|]. split; [reflexivity|].
  split; [vm_compute; reflexivity|].
  vm_compute. intros [H|[]]. discriminate H.
Qed.

(** ** The loading-strategy rule *)

Lemma loadingStrategy_In_plan (r : AnalysisReport) :
  In loadingStrategyOptimization (optimizationPlan r) <-> performanceGaps r <> [].
Proof.
  unfold optimizationPlan.
  rewrite !in_app_iff, !In_if_singleton.
  split.
  - intros [[H _]|[[H _]|[[H _]|[[_ H]|[H _]]]]]; try discriminate H.
    destruct (performanceGaps r); [discriminate H|discriminate].
  - intros H. right; right; right; left. split; [reflexivity|].
    destruct (performanceGaps r); [congruence|reflexivity].
Qed.

Lemma category_In_plan (r : AnalysisReport) (o : Optimization) :
  In o (optimizationPlan r) -> category o = "Loading Strategy" ->
  o = loadingStrategyOptimization.
Proof.
  unfold optimizationPlan.
  rewrite !in_app_iff, !In_if_singleton.
  intros [[-> _]|[[-> _]|[[-> _]|[[-> _]|[-> _]]]]]; simpl;
    intros H; try discriminate H; reflexivity.
Qed.

(** C6, as the code has it: the MEDIUM recommendation of category
    "Loading Strategy" is in the plan exactly when [performanceGaps] is
    not empty, that is, when the timeline has a gap or the total load time
    exceeds the target: the object of type ["Target Exceeded"] is kept in
    the same list as the gaps and counts for the rule. *)
Theorem C6_loading_strategy_rule (first : Entry) (rest : list Entry) :
  let entries := first :: rest in
  exists r : AnalysisReport,
    performAnalysis entries initialReport = JS.Normal r /\
    analyzeHARFile entries = JS.Normal (generateOptimizationPlan r) /\
    performanceGaps r
    = timelineGaps (timelineOf entries (getTime first))
        ++ targetFinding (totalLoadTime r) /\
    (In loadingStrategyOptimization (optimizations (generateOptimizationPlan r)) <->
       (exists g, In g (timelineGaps (timelineOf entries (getTime first)))) \/
       (targetLoadTime < totalLoadTime r)%Q) /\
    (forall o, In o (optimizations (generateOptimizationPlan r)) ->
       category o = "Loading Strategy" ->
       o = loadingStrategyOptimization /\ priority o = "MEDIUM").
Proof.
  intros entries. subst entries.
  destruct (performAnalysis_cons first rest initialReport)
    as (r & Hr & Ht & _ & Hg & _ & _).
  simpl performanceGaps in Hg. rewrite app_nil_l, <- Ht in Hg.
  exists r. split; [exact Hr|].
  split; [unfold analyzeHARFile; now rewrite Hr|].
  split; [exact Hg|].
  split.
  - simpl optimizations. rewrite loadingStrategy_In_plan, Hg. split.
    + intros Hne.
      destruct (timelineGaps (timelineOf (first :: rest) (getTime first))) as [|g gs].
      * right. simpl in Hne. unfold targetFinding in Hne.
        destruct (Qgt_bool (totalLoadTime r) targetLoadTime) eqn:E; [|congruence].
        now apply Qgt_bool_spec.
      * left. exists g. simpl; auto.
    + intros [[g Hin]|Hlt].
      * destruct (timelineGaps (timelineOf (first :: rest) (getTime first)));
          [destruct Hin|discriminate].
      * apply Qgt_bool_spec in Hlt. unfold targetFinding. rewrite Hlt.
        destruct (timelineGaps (timelineOf (first :: rest) (getTime first))); discriminate.
  - simpl optimizations. intros o Hin Hcat.
    pose proof (category_In_plan r o Hin Hcat) as ->. split; reflexivity.
Qed.

Lemma C6_loading_strategy_witness :
  exists r : AnalysisReport,
    analyzeHARFile trace_gap = JS.Normal r /\
    In loadingStrategyOptimization (optimizations r).
Proof.
  destruct (C6_loading_strategy_rule
              (entry_ 1000 100 "http://localhost:3000/" "text/html" 20480)
              [entry_ 1400 30 "http://localhost:3000/a.css" "text/css" 5120])
    as (r & _ & Hrun & _ & Hiff & _).
  exists (generateOptimizationPlan r). split; [exact Hrun|].
  apply Hiff. left. eexists. vm_compute. left. reflexivity.
Defined.

(** C6 as stated fails: a trace whose requests overlap has no gap on its
    timeline, and yet, its total load time exceeding the target, the
    recommendation of category "Loading Strategy" is in the plan. *)
Lemma C6_loading_strategy_counterexample :
  exists r : AnalysisReport,
    analyzeHARFile trace_overlap = JS.Normal r /\
    timelineGaps (timelineOf trace_overlap 1000) = [] /\
    performanceGaps r = [TargetExceeded 48] /\
    In loadingStrategyOptimization (optimizations r) /\
    ~ (In loadingStrategyOptimization (optimizations r) <->
       exists gs ge gd before after suggestion,
         In (TimelineGap gs ge gd before after suggestion) (performanceGaps r)).
Proof.
  eexists. split; [reflexivity|].
  split; [vm_compute; reflexivity|].
  split; [vm_compute; reflexivity|].
  assert (Hin : In loadingStrategyOptimization
                  (optimizations
                     (generateOptimizationPlan
                        (match performAnalysis trace_overlap initialReport with
                         | JS.Normal r => r
                         | JS.Throw _ => initialReport
                         end)))).
  { vm_compute. left. reflexivity. }
  split; [exact Hin|].
  intros [H _]. destruct (H Hin) as (gs & ge & gd & b & a & s & Hg).
  vm_compute in Hg. destruct Hg as [Hg|[]]. discriminate Hg.
Qed.

(** ** Scenarios *)

Example formatBytes_examples :
  formatBytes 0 = "0 Bytes" /\
  formatBytes 1023 = "1023 Bytes" /\
  formatBytes 1536 = "1.5 KB" /\
  formatBytes 1300000 = "1.24 MB" /\
  formatBytes (1024 ^ 3 - 1) = "1024 MB" /\
  formatBytes (1024 ^ 4) = "1 undefined" /\
  formatBytes (-1) = "NaN undefined".
Proof. vm_compute. repeat split. Qed.

(** A document (0ms to 50ms) and a style sheet (10ms to 40ms): the total
    load time is 50, both types are counted once, the timeline has no gap
    and no request is a bottleneck. *)
Example scenario_overlap :
  exists r : AnalysisReport,
    performAnalysis trace_overlap initialReport = JS.Normal r /\
    totalLoadTime r = 50%Q /\
    count <$> resourceBreakdown r !! "html" = Some 1%Z /\
    count <$> resourceBreakdown r !! "css" = Some 1%Z /\
    performanceGaps r = [TargetExceeded 48] /\
    bottlenecks r = [].
Proof. eexists. split; [reflexivity|]. vm_compute. repeat split. Qed.

(** A request that ends at 100ms followed by one that starts at 400ms:
    one gap of 300ms, marked critical. *)
Example scenario_gap :
  exists r : AnalysisReport,
    performAnalysis trace_gap initialReport = JS.Normal r /\
    performanceGaps r
    = [TimelineGap 100 400 300 "http://localhost:3000/..."
         "http://localhost:3000/a.css..." "Critical gap - investigate waterfall";
       TargetExceeded 428].
Proof. eexists. split; [reflexivity|]. vm_compute. reflexivity. Qed.

(** A bottleneck of type image brings exactly one recommendation of
    category "Images", of priority HIGH. *)
Example scenario_image :
  exists r : AnalysisReport,
    analyzeHARFile trace_image = JS.Normal r /\
    List.filter (fun o => String.eqb (category o) "Images") (optimizations r)
    = [imagesOptimization] /\
    priority imagesOptimization = "HIGH".
Proof. eexists. split; [reflexivity|]. vm_compute. split; reflexivity. Qed.

(** * Further properties of the analyzer *)

(** ** The report of an analysis from a fresh analyzer *)

Lemma analyzeAll_optimizations (startTime : Q) (entries : list Entry)
    (r : AnalysisReport) :
  optimizations
    (fold_left (fun acc entry => analyzeRequest entry startTime acc) entries r)
  = optimizations r.
Proof.
  revert r; induction entries as [|e es IH]; intros r; simpl; [reflexivity|].
  now rewrite IH.
Qed.

Lemma performAnalysis_optimizations (first : Entry) (rest : list Entry)
    (r r' : AnalysisReport) :
  performAnalysis (first :: rest) r = JS.Normal r' -> optimizations r' = optimizations r.
Proof.
  intros [= <-].
  cbn [identifyBottlenecks analyzeResourceBreakdown set_bottlenecks
       set_resourceBreakdown optimizations].
  unfold findPerformanceGaps.
  match goal with |- context [if ?c then _ else _] => destruct c end;
    cbn [set_performanceGaps optimizations identifyCriticalPath set_criticalPathItems];
    now rewrite analyzeAll_optimizations.
Qed.

(** The fields of the report of a non-empty trace analysed by a fresh
    analyzer. *)
Lemma fresh_analysis_fields (first : Entry) (rest : list Entry) (r : AnalysisReport) :
  performAnalysis (first :: rest) initialReport = JS.Normal r ->
  totalLoadTime r = (spec_maxEnd first rest - getTime first)%Q /\
  bottlenecks r
  = JS.sort (fun a b => (b_time b - b_time a)%Q)
      (flat_map (fun e => issuesOf e (getTime first)) (first :: rest)) /\
  performanceGaps r
  = timelineGaps (timelineOf (first :: rest) (getTime first))
      ++ targetFinding (totalLoadTime r) /\
  criticalPathItems r
  = match List.find isHtmlDocument (first :: rest) with
    | Some htmlEntry => [htmlItem htmlEntry]
    | None => []
    end ++ List.map criticalItem (take 5 (criticalResources (first :: rest))) /\
  resourceBreakdown r = finishStat <$> breakdownOf (first :: rest) ∅ /\
  optimizations r = [].
Proof.
  intros Hr.
  destruct (performAnalysis_cons first rest initialReport)
    as (r' & Hr' & Ht & Hb & Hg & Hc & Hrb).
  rewrite Hr in Hr'. injection Hr' as <-.
  split; [exact Ht|]. split; [exact Hb|].
  split; [rewrite Ht; exact Hg|]. split; [exact Hc|]. split; [exact Hrb|].
  exact (performAnalysis_optimizations first rest initialReport r Hr).
Qed.

Lemma fresh_bottlenecks_In (first : Entry) (rest : list Entry) (r : AnalysisReport)
    (b : Bottleneck) :
  performAnalysis (first :: rest) initialReport = JS.Normal r ->
  In b (bottlenecks r) <->
  exists e, In e (first :: rest) /\ In b (issuesOf e (getTime first)).
Proof.
  intros Hr. destruct (fresh_analysis_fields first rest r Hr) as (_ & -> & _).
  rewrite sort_In, in_flat_map. reflexivity.
Qed.

Lemma filter_nonempty {A : Type} (f : A -> bool) (l : list A) :
  (0 <? List.length (List.filter f l))%nat = true <-> exists x, In x l /\ f x = true.
Proof.
  rewrite Nat.ltb_lt. split.
  - destruct (List.filter f l) as [|x l'] eqn:E; simpl; [lia|]. intros _.
    exists x. apply filter_In. rewrite E. simpl; auto.
  - intros [x Hx]. apply filter_In in Hx.
    destruct (List.filter f l); [destruct Hx|simpl; lia].
Qed.

Lemma plan_In (r : AnalysisReport) (o : Optimization) :
  In o (optimizationPlan r) <->
  (o = imagesOptimization /\
   exists b, In b (bottlenecks r) /\ b_type b = "image") \/
  (o = fileSizeOptimization /\
   exists b, In b (bottlenecks r) /\ b_issue b = "Large file size") \/
  (o = networkOptimization /\
   exists b, In b (bottlenecks r) /\ b_issue b = "Slow request") \/
  (o = loadingStrategyOptimization /\ performanceGaps r <> []) \/
  (o = overallOptimization r /\ (targetLoadTime < totalLoadTime r)%Q).
Proof.
  unfold optimizationPlan.
  rewrite !in_app_iff, !In_if_singleton, !filter_nonempty, Qgt_bool_spec.
  assert (Hlen : (0 <? List.length (performanceGaps r))%nat = true
                 <-> performanceGaps r <> []).
  { destruct (performanceGaps r); simpl; split.
    - discriminate.
    - intros H. exfalso. now apply H.
    - intros _. discriminate.
    - reflexivity. }
  rewrite Hlen.
  assert (Heqb : forall (f : Bottleneck -> string) (s : string),
             (exists b, In b (bottlenecks r) /\ String.eqb (f b) s = true)
             <-> exists b, In b (bottlenecks r) /\ f b = s).
  { intros f s. split; intros [b [Hb H]]; exists b; split; auto;
      now apply String.eqb_eq. }
  rewrite (Heqb b_type "image"), (Heqb b_issue "Large file size"),
    (Heqb b_issue "Slow request").
  tauto.
Qed.

(** The three rules on bottlenecks, read on the entries of the trace: the
    recommendation "Images" is in the plan exactly when an entry of type
    image is slow (over 100ms) or large (over 500 KiB), "File Size" exactly
    when some entry is large, "Network" exactly when some entry is slow. *)
Theorem plan_bottleneck_rules_on_entries (first : Entry) (rest : list Entry) :
  let entries := first :: rest in
  exists r : AnalysisReport,
    analyzeHARFile entries = JS.Normal r /\
    (In imagesOptimization (optimizations r) <->
       exists e, In e entries /\ resourceTypeOf (contentTypeOf e) = "image" /\
                 ((100 < time e)%Q \/ (500 * 1024 < sizeOf e)%Z)) /\
    (In fileSizeOptimization (optimizations r) <->
       exists e, In e entries /\ (500 * 1024 < sizeOf e)%Z) /\
    (In networkOptimization (optimizations r) <->
       exists e, In e entries /\ (100 < time e)%Q).
Proof.
  intros entries. subst entries.
  destruct (performAnalysis_cons first rest initialReport) as (r & Hr & _).
  exists (generateOptimizationPlan r).
  split; [unfold analyzeHARFile; now rewrite Hr|].
  simpl optimizations. rewrite !plan_In.
  pose proof (fun b => fresh_bottlenecks_In first rest r b Hr) as Hb.
  split; [|split].
  - split.
    + intros [[_ [b [Hin Hty]]]|[[H _]|[[H _]|[[H _]|[H _]]]]]; try discriminate H.
      apply Hb in Hin. destruct Hin as [e [He Hi]]. exists e. split; [exact He|].
      apply issuesOf_In in Hi. destruct Hi as [[-> Ht]|[-> Hs]]; simpl in Hty; auto.
    + intros [e [He [Hty [Ht|Hs]]]]; left; (split; [reflexivity|]).
      * exists (bottleneckOf e (getTime first) "Slow request").
        split; [|exact Hty]. apply Hb. exists e. split; [exact He|].
        apply issuesOf_In. auto.
      * exists (bottleneckOf e (getTime first) "Large file size").
        split; [|exact Hty]. apply Hb. exists e. split; [exact He|].
        apply issuesOf_In. auto.
  - split.
    + intros [[H _]|[[_ [b [Hin Hi]]]|[[H _]|[[H _]|[H _]]]]]; try discriminate H.
      apply Hb in Hin. destruct Hin as [e [He Hin]]. exists e. split; [exact He|].
      apply issuesOf_In in Hin. destruct Hin as [[-> _]|[-> Hs]];
        [discriminate Hi|exact Hs].
    + intros [e [He Hs]]. right; left. split; [reflexivity|].
      exists (bottleneckOf e (getTime first) "Large file size").
      split; [|reflexivity]. apply Hb. exists e. split; [exact He|].
      apply issuesOf_In. auto.
  - split.
    + intros [[H _]|[[H _]|[[_ [b [Hin Hi]]]|[[H _]|[H _]]]]]; try discriminate H.
      apply Hb in Hin. destruct Hin as [e [He Hin]]. exists e. split; [exact He|].
      apply issuesOf_In in Hin. destruct Hin as [[-> Ht]|[-> _]];
        [exact Ht|discriminate Hi].
    + intros [e [He Ht]]. right; right; left. split; [reflexivity|].
      exists (bottleneckOf e (getTime first) "Slow request").
      split; [|reflexivity]. apply Hb. exists e. split; [exact He|].
      apply issuesOf_In. auto.
Qed.

Lemma plan_bottleneck_rules_witness :
  exists r : AnalysisReport,
    analyzeHARFile trace_image = JS.Normal r /\
    In imagesOptimization (optimizations r).
Proof.
  destruct (plan_bottleneck_rules_on_entries
              (entry_ 1000 150 "http://localhost:3000/big.png" "image/png" (600 * 1024)) [])
    as (r & Hr & Himg & _).
  exists r. split; [exact Hr|]. apply Himg.
  eexists. split; [left; reflexivity|]. split; [reflexivity|].
  left. reflexivity.
Defined.

(** The rule on the target: the summary says NEEDS_OPTIMIZATION exactly
    when the total load time of the report exceeds the target of 2ms, and
    GOOD otherwise; exactly then the plan holds the CRITICAL recommendation
    and [performanceGaps] the object of type ["Target Exceeded"]; the
    recommendation "Loading Strategy" always comes with the CRITICAL
    one. *)
Theorem target_rule_consistent (first : Entry) (rest : list Entry) :
  let entries := first :: rest in
  exists (saved : SavedReport) (final : AnalysisReport),
    analyzeHARFileOutputs entries = JS.Normal (saved, final) /\
    s_totalLoadTime (summary saved) = totalLoadTime final /\
    (s_performanceStatus (summary saved) = "NEEDS_OPTIMIZATION" <->
       (targetLoadTime < totalLoadTime final)%Q) /\
    (s_performanceStatus (summary saved) = "GOOD" <->
       (totalLoadTime final <= targetLoadTime)%Q) /\
    (In (overallOptimization final) (optimizations final) <->
       (targetLoadTime < totalLoadTime final)%Q) /\
    (In (TargetExceeded (totalLoadTime final - targetLoadTime)%Q)
        (performanceGaps final) <->
       (targetLoadTime < totalLoadTime final)%Q) /\
    (In (overallOptimization final) (optimizations final) ->
       In loadingStrategyOptimization (optimizations final)).
Proof.
  intros entries. subst entries.
  destruct (performAnalysis_cons first rest initialReport) as (r & Hr & _).
  destruct (fresh_analysis_fields first rest r Hr) as (Ht & _ & Hg & _).
  exists (generateReport r), (generateOptimizationPlan r).
  split; [unfold analyzeHARFileOutputs; now rewrite Hr|].
  cbn [generateOptimizationPlan set_optimizations totalLoadTime optimizations
       performanceGaps generateReport summary s_performanceStatus s_totalLoadTime].
  assert (Hover : In (overallOptimization r) (optimizationPlan r) <->
                  (targetLoadTime < totalLoadTime r)%Q).
  { rewrite plan_In. split.
    - intros [[H _]|[[H _]|[[H _]|[[H _]|[_ H]]]]]; try discriminate H. exact H.
    - intros H. do 4 right. split; [reflexivity|exact H]. }
  assert (Hfind : In (TargetExceeded (totalLoadTime r - targetLoadTime)%Q)
                    (performanceGaps r) <->
                  (targetLoadTime < totalLoadTime r)%Q).
  { rewrite Hg, in_app_iff, targetFinding_In. split.
    - intros [H|[_ H]]; [|exact H].
      apply timelineGaps_In in H. destruct H as (i & p & n & _ & _ & _ & H).
      discriminate H.
    - intros H. right. split; [reflexivity|exact H]. }
  split; [reflexivity|].
  unfold performanceStatus.
  destruct (Qle_bool (totalLoadTime r) targetLoadTime) eqn:E.
  - apply Qle_bool_iff in E.
    split; [split; [discriminate|intros H; exfalso; lra]|].
    split; [tauto|]. split; [exact Hover|]. split; [exact Hfind|].
    intros H. apply Hover in H. exfalso. lra.
  - assert (Hlt : (targetLoadTime < totalLoadTime r)%Q).
    { apply Qnot_le_lt. intros H. apply Qle_bool_iff in H. congruence. }
    split; [tauto|].
    split; [split; [discriminate|intros H; exfalso; lra]|].
    split; [exact Hover|]. split; [exact Hfind|].
    intros _. apply loadingStrategy_In_plan. rewrite Hg.
    apply Hfind in Hlt. rewrite Hg in Hlt. intros Hnil. rewrite Hnil in Hlt.
    destruct Hlt.
Qed.

Lemma target_rule_witness :
  exists (saved : SavedReport) (final : AnalysisReport),
    analyzeHARFileOutputs trace_overlap = JS.Normal (saved, final) /\
    s_performanceStatus (summary saved) = "NEEDS_OPTIMIZATION" /\
    In loadingStrategyOptimization (optimizations final).
Proof.
  destruct (target_rule_consistent
              (entry_ 1000 50 "http://localhost:3000/" "text/html" 20480)
              [entry_ 1010 30 "http://localhost:3000/a.css" "text/css" 5120])
    as (saved & final & Hrun & _ & Hneeds & _ & Hover & _ & Hload).
  exists saved, final. split; [exact Hrun|].
  assert (Hlt : (targetLoadTime < totalLoadTime final)%Q).
  { pose proof Hrun as Hrun'. vm_compute in Hrun'.
    injection Hrun' as _ <-. reflexivity. }
  split; [apply Hneeds; exact Hlt|].
  apply Hload, Hover. exact Hlt.
Defined.

(** The plan follows the order of the rules and holds each category at
    most once: it is a sublist of the five recommendations in the order
    Images, File Size, Network, Loading Strategy, Overall Performance. *)
Theorem plan_follows_rule_order (r : AnalysisReport) :
  sublist (optimizationPlan r) (ruleOrder r) /\
  NoDup (List.map category (optimizationPlan r)) /\
  (List.length (optimizationPlan r) <= 5)%nat.
Proof.
  assert (Hsub : sublist (optimizationPlan r) (ruleOrder r)).
  { unfold optimizationPlan, ruleOrder.
    repeat (match goal with |- context [if ?c then _ else _] => destruct c end);
      simpl; repeat (first [apply sublist_nil | apply sublist_skip | apply sublist_cons]).
  }
  split; [exact Hsub|]. split.
  - apply (sublist_NoDup _ (List.map category (ruleOrder r)));
      [|exact (fmap_sublist category _ _ Hsub)].
    unfold ruleOrder. simpl.
    repeat (apply NoDup_cons_2; [rewrite ?elem_of_cons, elem_of_nil; intuition discriminate|]).
    apply NoDup_nil_2.
  - apply sublist_length in Hsub. exact Hsub.
Qed.

(** ** The saved report *)

(** [analyzeHARFile] calls [generateReport] before
    [generateOptimizationPlan]: the saved document holds the report of the
    analysis with an empty list of recommendations, and the section of
    recommendations is not printed, whatever the plan computed afterwards;
    that plan is not empty as soon as the total load time of the report
    exceeds the target of 2ms. *)
Theorem saved_report_precedes_plan (first : Entry) (rest : list Entry) :
  let entries := first :: rest in
  exists (saved : SavedReport) (final : AnalysisReport),
    analyzeHARFileOutputs entries = JS.Normal (saved, final) /\
    analyzeHARFile entries = JS.Normal final /\
    optimizations (savedFields saved) = [] /\
    printsOptimizations (savedFields saved) = false /\
    savedFields saved = set_optimizations [] final /\
    s_totalLoadTime (summary saved) = totalLoadTime final /\
    ((targetLoadTime < totalLoadTime final)%Q -> optimizations final <> []).
Proof.
  intros entries. subst entries.
  destruct (performAnalysis_cons first rest initialReport) as (r & Hr & _).
  destruct (fresh_analysis_fields first rest r Hr) as (Ht & _ & _ & _ & _ & Ho).
  exists (generateReport r), (generateOptimizationPlan r).
  split; [unfold analyzeHARFileOutputs; now rewrite Hr|].
  split; [unfold analyzeHARFile; now rewrite Hr|].
  cbn [generateReport savedFields summary s_totalLoadTime].
  split; [exact Ho|].
  split; [unfold printsOptimizations; now rewrite Ho|].
  split.
  { destruct r as [t c g o rb b]. simpl in Ho. subst o. reflexivity. }
  split; [reflexivity|].
  intros Hlt. cbn [generateOptimizationPlan set_optimizations totalLoadTime] in Hlt.
  assert (Hin : In (overallOptimization r) (optimizationPlan r)).
  { apply plan_In. do 4 right. split; [reflexivity|exact Hlt]. }
  simpl optimizations. intros Hnil. rewrite Hnil in Hin. destruct Hin.
Qed.

Lemma saved_report_witness :
  exists (saved : SavedReport) (final : AnalysisReport),
    analyzeHARFileOutputs trace_image = JS.Normal (saved, final) /\
    optimizations (savedFields saved) = [] /\
    optimizations final <> [].
Proof.
  destruct (saved_report_precedes_plan
              (entry_ 1000 150 "http://localhost:3000/big.png" "image/png" (600 * 1024)) [])
    as (saved & final & Hrun & _ & Hsaved & _ & _ & _ & Hfinal).
  exists saved, final. split; [exact Hrun|]. split; [exact Hsaved|].
  apply Hfinal.
  pose proof Hrun as Hrun'. vm_compute in Hrun'.
  injection Hrun' as _ <-. reflexivity.
Defined.

(** ** Ranking of the bottlenecks *)

(** Ranking is idempotent: [identifyBottlenecks] leaves a report it has
    ranked as it is. *)
Theorem identifyBottlenecks_idempotent (r : AnalysisReport) :
  identifyBottlenecks (identifyBottlenecks r) = identifyBottlenecks r.
Proof.
  unfold identifyBottlenecks. cbn [set_bottlenecks bottlenecks totalLoadTime
    criticalPathItems performanceGaps optimizations resourceBreakdown].
  now rewrite sort_descending_fixed.
Qed.

(** The ranking is stable: the bottlenecks of one and the same time keep
    the order in which they were pushed, entry after entry, the slow
    request of an entry before its large file. *)
Theorem bottleneck_ties_keep_push_order (first : Entry) (rest : list Entry) (t : Q) :
  let entries := first :: rest in
  exists r : AnalysisReport,
    performAnalysis entries initialReport = JS.Normal r /\
    List.filter (fun b => Qeq_bool (b_time b) t) (bottlenecks r)
    = List.filter (fun b => Qeq_bool (b_time b) t)
        (flat_map (fun e => issuesOf e (getTime first)) entries).
Proof.
  intros entries. subst entries.
  destruct (performAnalysis_cons first rest initialReport) as (r & Hr & _).
  destruct (fresh_analysis_fields first rest r Hr) as (_ & Hb & _).
  exists r. split; [exact Hr|]. rewrite Hb.
  apply sort_filter_class.
  intros a b Ha Hb'. apply Qeq_bool_iff in Ha, Hb'. lra.
Qed.

Lemma StronglySorted_take_drop {A : Type} (R : A -> A -> Prop) (l : list A) (n : nat)
    (a b : A) :
  StronglySorted R l -> In a (take n l) -> In b (drop n l) -> R a b.
Proof.
  intros Hs. revert n a b. induction Hs as [|x l Hs IH Hall]; intros n a b.
  - destruct n; intros [].
  - destruct n as [|n]; simpl; [intros []|].
    intros [<-|Ha] Hb.
    + rewrite Forall_forall in Hall. apply Hall.
      apply list_elem_of_In in Hb.
      eapply elem_of_sublist; [exact Hb|apply sublist_drop].
    + now apply (IH n).
Qed.

(** The bottlenecks that are printed, the first five of the ranking, are
    the slowest ones: none of those left out takes longer than a printed
    one, and all are printed when there are at most five. *)
Theorem printed_bottlenecks_are_slowest (first : Entry) (rest : list Entry) :
  let entries := first :: rest in
  exists r : AnalysisReport,
    performAnalysis entries initialReport = JS.Normal r /\
    (List.length (printedBottlenecks r) <= 5)%nat /\
    (forall shown hidden,
       In shown (printedBottlenecks r) -> In hidden (drop 5 (bottlenecks r)) ->
       (b_time hidden <= b_time shown)%Q) /\
    ((List.length (bottlenecks r) <= 5)%nat -> printedBottlenecks r = bottlenecks r).
Proof.
  intros entries. subst entries.
  destruct (performAnalysis_cons first rest initialReport) as (r & Hr & _).
  destruct (fresh_analysis_fields first rest r Hr) as (_ & Hb & _).
  exists r. split; [exact Hr|]. unfold printedBottlenecks.
  split; [rewrite length_take; lia|]. split.
  - intros shown hidden Hs Hh.
    apply (StronglySorted_take_drop (fun a b => (b_time b <= b_time a)%Q)
             (bottlenecks r) 5 shown hidden); [|exact Hs|exact Hh].
    rewrite Hb. apply (sort_descending b_time).
  - intros Hlen. now apply take_ge.
Qed.

Lemma printed_bottlenecks_witness :
  exists r : AnalysisReport,
    performAnalysis trace_image initialReport = JS.Normal r /\
    printedBottlenecks r = bottlenecks r.
Proof.
  destruct (printed_bottlenecks_are_slowest
              (entry_ 1000 150 "http://localhost:3000/big.png" "image/png" (600 * 1024)) [])
    as (r & Hr & _ & _ & H).
  exists r. split; [exact Hr|]. apply H.
  vm_compute in Hr. injection Hr as <-. vm_compute. lia.
Defined.

Lemma issuesOf_length (e : Entry) (startTime : Q) :
  List.length (issuesOf e startTime)
  = ((if Qgt_bool (time e) 100 then 1 else 0)
     + (if (500 * 1024 <? sizeOf e)%Z then 1 else 0))%nat.
Proof.
  unfold issuesOf. rewrite length_app.
  destruct (Qgt_bool (time e) 100), (500 * 1024 <? sizeOf e)%Z; reflexivity.
Qed.

Lemma issues_length (startTime : Q) (entries : list Entry) :
  List.length (flat_map (fun e => issuesOf e startTime) entries)
  = (List.length (List.filter (fun e => Qgt_bool (time e) 100) entries)
     + List.length (List.filter (fun e => (500 * 1024 <? sizeOf e)%Z) entries))%nat.
Proof.
  induction entries as [|e es IH]; simpl; [reflexivity|].
  rewrite length_app, IH, issuesOf_length.
  destruct (Qgt_bool (time e) 100), (500 * 1024 <? sizeOf e)%Z; simpl; lia.
Qed.

(** The number of bottlenecks of a report is the number of slow entries
    plus the number of large entries, hence at most twice the number of
    entries; there is none exactly when every entry takes at most 100ms
    and has at most 500 KiB. *)
Theorem bottleneck_count (first : Entry) (rest : list Entry) :
  let entries := first :: rest in
  exists r : AnalysisReport,
    performAnalysis entries initialReport = JS.Normal r /\
    List.length (bottlenecks r)
    = (List.length (List.filter (fun e => Qgt_bool (time e) 100) entries)
       + List.length (List.filter (fun e => (500 * 1024 <? sizeOf e)%Z) entries))%nat /\
    (List.length (bottlenecks r) <= 2 * List.length entries)%nat /\
    (bottlenecks r = [] <->
       forall e, In e entries -> (time e <= 100)%Q /\ (sizeOf e <= 500 * 1024)%Z).
Proof.
  intros entries. subst entries.
  destruct (performAnalysis_cons first rest initialReport) as (r & Hr & _).
  destruct (fresh_analysis_fields first rest r Hr) as (_ & Hb & _).
  exists r. split; [exact Hr|].
  assert (Hlen : List.length (bottlenecks r)
                 = List.length
                     (flat_map (fun e => issuesOf e (getTime first)) (first :: rest))).
  { rewrite Hb. apply Permutation_length, sort_perm. }
  split; [rewrite Hlen; apply issues_length|].
  split.
  { rewrite Hlen, issues_length.
    pose proof (filter_length_le (fun e => Qgt_bool (time e) 100) (first :: rest)).
    pose proof (filter_length_le (fun e => (500 * 1024 <? sizeOf e)%Z) (first :: rest)).
    lia. }
  split.
  - intros Hnil e He. split.
    + apply Qnot_lt_le. intros Ht.
      assert (Hin : In (bottleneckOf e (getTime first) "Slow request") (bottlenecks r)).
      { apply (fresh_bottlenecks_In first rest r _ Hr). exists e. split; [exact He|].
        apply issuesOf_In. auto. }
      rewrite Hnil in Hin. destruct Hin.
    + apply Z.nlt_ge. intros Hs.
      assert (Hin : In (bottleneckOf e (getTime first) "Large file size") (bottlenecks r)).
      { apply (fresh_bottlenecks_In first rest r _ Hr). exists e. split; [exact He|].
        apply issuesOf_In. auto. }
      rewrite Hnil in Hin. destruct Hin.
  - intros Hall. destruct (bottlenecks r) as [|b bs] eqn:E; [reflexivity|].
    exfalso.
    assert (Hin : In b (bottlenecks r)) by (rewrite E; simpl; auto).
    apply (fresh_bottlenecks_In first rest r _ Hr) in Hin.
    destruct Hin as [e [He Hi]]. destruct (Hall e He) as [Ht Hs].
    apply issuesOf_In in Hi. destruct Hi as [[_ H]|[_ H]]; [lra|lia].
Qed.

Lemma bottleneck_count_witness :
  exists r : AnalysisReport,
    performAnalysis trace_overlap initialReport = JS.Normal r /\ bottlenecks r = [].
Proof.
  destruct (bottleneck_count
              (entry_ 1000 50 "http://localhost:3000/" "text/html" 20480)
              [entry_ 1010 30 "http://localhost:3000/a.css" "text/css" 5120])
    as (r & Hr & _ & _ & H).
  exists r. split; [exact Hr|]. apply H.
  intros e [<-|[<-|[]]]; split; vm_compute; discriminate.
Defined.

(** ** Abbreviated URLs *)

Lemma substring0_length (n : nat) (s : string) :
  String.length (String.substring 0 n s) = Nat.min n (String.length s).
Proof.
  revert s; induction n as [|n IH]; intros s.
  - destruct s; reflexivity.
  - destruct s as [|c s]; simpl; [reflexivity|]. now rewrite IH.
Qed.

Lemma substring0_all (n : nat) (s : string) :
  (String.length s <= n)%nat -> String.substring 0 n s = s.
Proof.
  revert s; induction n as [|n IH]; intros s Hlen.
  - destruct s; [reflexivity|simpl in Hlen; lia].
  - destruct s as [|c s]; simpl; [reflexivity|].
    rewrite IH; [reflexivity|simpl in Hlen; lia].
Qed.

Lemma substring0_prefix (n : nat) (s : string) :
  exists rest : string, s = String.substring 0 n s +:+ rest.
Proof.
  revert s; induction n as [|n IH]; intros s.
  - exists s. destruct s; reflexivity.
  - destruct s as [|c s]; simpl; [exists ""; reflexivity|].
    destruct (IH s) as [rest Hrest]. exists rest.
    change (String c s = String c (String.substring 0 n s +:+ rest)).
    f_equal. exact Hrest.
Qed.

Lemma append_length (s t : string) :
  String.length (s +:+ t) = (String.length s + String.length t)%nat.
Proof.
  induction s as [|c s IH]; [reflexivity|].
  change (S (String.length (s +:+ t)) = S (String.length s + String.length t)).
  now rewrite IH.
Qed.

Lemma append_empty_r (s : string) : s +:+ "" = s.
Proof.
  induction s as [|c s IH]; [reflexivity|].
  change (String c (s +:+ "") = String c s). now rewrite IH.
Qed.

(** The URL stored in a bottleneck is the URL itself when it has at most
    100 characters, and its first 100 characters followed by three dots
    otherwise: never more than 103 characters.  The URL stored in an item
    of the critical path always ends with the three dots, also when
    nothing was cut: the first 80 characters at most, and the dots. *)
Theorem url_abbreviations (e : Entry) (startTime : Q) (issue : string) :
  let u := url e in
  let shown := b_url (bottleneckOf e startTime issue) in
  (String.length shown <= 103)%nat /\
  ((String.length u <= 100)%nat -> shown = u) /\
  ((100 < String.length u)%nat ->
     String.length shown = 103%nat /\
     exists cut : string, u = JS.substring0 100 u +:+ cut /\
                          shown = JS.substring0 100 u +:+ "...") /\
  c_url (htmlItem e) = c_url (criticalItem e) /\
  String.length (c_url (htmlItem e)) = (Nat.min 80 (String.length u) + 3)%nat /\
  exists cut : string, u = JS.substring0 80 u +:+ cut /\
                       c_url (htmlItem e) = JS.substring0 80 u +:+ "...".
Proof.
  intros u shown. subst shown. cbn [bottleneckOf b_url htmlItem criticalItem c_url].
  fold u. unfold shortUrl, JS.substring0, JS.length.
  split; [|split; [|split; [|split; [|split]]]].
  - rewrite append_length, substring0_length.
    destruct (100 <? String.length u)%nat;
      [change (String.length "...") with 3%nat
      |change (String.length "") with 0%nat]; lia.
  - intros Hlen. rewrite substring0_all by exact Hlen.
    destruct (Nat.ltb_spec 100 (String.length u)); [lia|].
    apply append_empty_r.
  - intros Hlen.
    destruct (Nat.ltb_spec 100 (String.length u)); [|lia].
    split.
    + rewrite append_length, substring0_length.
      change (String.length "...") with 3%nat. lia.
    + destruct (substring0_prefix 100 u) as [cut Hcut]. exists cut. auto.
  - reflexivity.
  - rewrite append_length, substring0_length. reflexivity.
  - destruct (substring0_prefix 80 u) as [cut Hcut]. exists cut. auto.
Qed.

Lemma url_abbreviations_witness :
  b_url (bottleneckOf (entry_ 0 0 "http://localhost:3000/" "text/html" 0) 0 "Slow request")
  = "http://localhost:3000/".
Proof.
  destruct (url_abbreviations (entry_ 0 0 "http://localhost:3000/" "text/html" 0)
              0 "Slow request") as (_ & H & _).
  apply H. vm_compute. lia.
Defined.

(** ** Totals of the resource breakdown *)

Lemma totalSize_statOf (l : list Entry) (st : ResourceStat) :
  totalSize (statOf l st) = (totalSize st + sumSizes l)%Z.
Proof.
  unfold statOf. revert st; induction l as [|e l IH]; intros st.
  - simpl. lia.
  - cbn [fold_left sumSizes fold_right]. rewrite IH. simpl totalSize.
    fold (sumSizes l). lia.
Qed.

Lemma totalTime_statOf (l : list Entry) (st : ResourceStat) :
  totalTime (statOf l st) = fold_left (fun acc e => (acc + time e)%Q) l (totalTime st).
Proof.
  unfold statOf. revert st; induction l as [|e l IH]; intros st; [reflexivity|].
  cbn [fold_left]. now rewrite IH.
Qed.

(** For each resource type of a report, the total size is the sum of the
    sizes of the entries of the type, the total time is the running total
    of their times, added one after the other from 0 in the order of the
    trace, and the formatted total size is the rendering of the total size
    by [formatBytes]. *)
Theorem breakdown_totals (first : Entry) (rest : list Entry) :
  let entries := first :: rest in
  exists r : AnalysisReport,
    performAnalysis entries initialReport = JS.Normal r /\
    (forall ty st, resourceBreakdown r !! ty = Some st ->
       totalSize st = sumSizes (entriesOfType ty entries) /\
       totalTime st = accumulatedTimes (entriesOfType ty entries) /\
       totalSizeFormatted st = Some (formatBytes (totalSize st))).
Proof.
  intros entries. subst entries.
  destruct (performAnalysis_cons first rest initialReport) as (r & Hr & _).
  destruct (fresh_analysis_fields first rest r Hr) as (_ & _ & _ & _ & Hrb & _).
  exists r. split; [exact Hr|]. rewrite Hrb.
  intros ty st. rewrite lookup_fmap, breakdownOf_lookup, lookup_empty.
  destruct (entriesOfType ty (first :: rest)) as [|e l] eqn:E; [discriminate|].
  cbn [fmap option_fmap option_map default]. intros [= <-].
  cbn [finishStat totalSize totalTime totalSizeFormatted].
  change (statOf l (addRequest (sizeOf e) (time e) emptyStat))
    with (statOf (e :: l) emptyStat).
  rewrite totalSize_statOf. split; [simpl; lia|]. split; [|reflexivity].
  rewrite totalTime_statOf. reflexivity.
Qed.

(** ** Shape of the critical path *)

Lemma find_isHtml_none (entries : list Entry) :
  (forall e, In e entries -> resourceTypeOf (contentTypeOf e) <> "html") ->
  List.find isHtmlDocument entries = None.
Proof.
  intros H. destruct (List.find isHtmlDocument entries) as [e|] eqn:E; [|reflexivity].
  apply find_some in E. destruct E as [He Hd].
  apply isHtmlDocument_class in Hd. exfalso. exact (H e He Hd).
Qed.

(** The critical path of a report has at most six items: at most one of
    type "HTML Document", in the first place, then at most five of type
    "Critical CSS" or "Critical JS"; without an entry of class html it has
    no item for a document. *)
Theorem critical_path_shape (first : Entry) (rest : list Entry) :
  let entries := first :: rest in
  exists r : AnalysisReport,
    performAnalysis entries initialReport = JS.Normal r /\
    (List.length (criticalPathItems r) <= 6)%nat /\
    (forall i item, criticalPathItems r !! i = Some item ->
       (c_type item = "HTML Document" /\ i = 0%nat) \/
       c_type item = "Critical CSS" \/ c_type item = "Critical JS") /\
    ((forall e, In e entries -> resourceTypeOf (contentTypeOf e) <> "html") ->
       (List.length (criticalPathItems r) <= 5)%nat /\
       forall item, In item (criticalPathItems r) -> c_type item <> "HTML Document").
Proof.
  intros entries. subst entries.
  destruct (performAnalysis_cons first rest initialReport) as (r & Hr & _).
  destruct (fresh_analysis_fields first rest r Hr) as (_ & _ & _ & Hc & _).
  exists r. split; [exact Hr|]. rewrite Hc.
  set (cands := take 5 (criticalResources (first :: rest))).
  assert (Hlen : (List.length (List.map criticalItem cands) <= 5)%nat).
  { rewrite length_map. unfold cands. rewrite length_take. lia. }
  assert (Hty : forall item, In item (List.map criticalItem cands) ->
                  c_type item = "Critical CSS" \/ c_type item = "Critical JS").
  { intros item Hin. apply in_map_iff in Hin. destruct Hin as [e [<- _]].
    unfold criticalItem. simpl.
    destruct (JS.includes (contentTypeOf e) "css"); auto. }
  split; [|split].
  - rewrite length_app. destruct (List.find isHtmlDocument (first :: rest)); simpl; lia.
  - intros i item Hi.
    destruct (List.find isHtmlDocument (first :: rest)) as [d|].
    + destruct i as [|i]; simpl in Hi.
      * injection Hi as <-. left. split; reflexivity.
      * right. apply Hty. eapply lookup_In. exact Hi.
    + right. apply Hty. eapply lookup_In. exact Hi.
  - intros Hno. rewrite (find_isHtml_none _ Hno). simpl. split; [exact Hlen|].
    intros item Hin Heq. destruct (Hty item Hin) as [H|H]; congruence.
Qed.

Lemma critical_path_shape_witness :
  exists r : AnalysisReport,
    performAnalysis trace_unordered initialReport = JS.Normal r /\
    forall item, In item (criticalPathItems r) -> c_type item <> "HTML Document".
Proof.
  destruct (critical_path_shape
              (entry_ 1100 10 "http://localhost:3000/b" "text/plain" 1)
              [entry_ 1000 10 "http://localhost:3000/a" "text/plain" 1])
    as (r & Hr & _ & _ & H).
  exists r. split; [exact Hr|]. apply H.
  intros e [<-|[<-|[]]]; vm_compute; discriminate.
Defined.

(** ** Order of the gaps *)

Lemma StronglySorted_lookup {A : Type} (R : A -> A -> Prop) (l : list A)
    (i j : nat) (x y : A) :
  StronglySorted R l -> (i < j)%nat -> l !! i = Some x -> l !! j = Some y -> R x y.
Proof.
  intros Hs. revert i j. induction Hs as [|z l Hs IH Hall]; intros i j Hij Hi Hj.
  - destruct i; discriminate Hi.
  - destruct j as [|j]; [lia|]. destruct i as [|i]; simpl in Hi, Hj.
    + injection Hi as <-. rewrite Forall_forall in Hall. apply Hall.
      eapply list_elem_of_lookup_2. exact Hj.
    + apply (IH i j); [lia|exact Hi|exact Hj].
Qed.

Lemma flat_map_seq_length {B : Type} (f : nat -> list B) (a n : nat) :
  (forall i, (List.length (f i) <= 1)%nat) ->
  (List.length (flat_map f (seq a n)) <= n)%nat.
Proof.
  intros Hf. revert a; induction n as [|n IH]; intros a; simpl; [lia|].
  rewrite length_app. specialize (IH (S a)). specialize (Hf a). lia.
Qed.

Lemma flat_map_seq_sorted {B : Type} (R : B -> B -> Prop) (f : nat -> list B)
    (a n : nat) :
  (forall i, (List.length (f i) <= 1)%nat) ->
  (forall i j x y, (a <= i)%nat -> (i < j)%nat -> (j < a + n)%nat ->
     In x (f i) -> In y (f j) -> R x y) ->
  StronglySorted R (flat_map f (seq a n)).
Proof.
  intros Hlen. revert a; induction n as [|n IH]; intros a HR; simpl; [constructor|].
  assert (Htail : StronglySorted R (flat_map f (seq (S a) n))).
  { apply IH. intros i j x y Hi Hij Hj. apply HR; lia. }
  specialize (Hlen a). destruct (f a) as [|x [|x' l]] eqn:E; simpl in Hlen; [exact Htail| |lia].
  simpl. constructor; [exact Htail|].
  rewrite Forall_forall. intros y Hy. apply list_elem_of_In, in_flat_map in Hy.
  destruct Hy as [j [Hj Hy]]. apply in_seq in Hj.
  apply (HR a j x y); [lia|lia|lia| |exact Hy]. rewrite E. simpl; auto.
Qed.

Lemma gapAt_length (timeline : list TimelineItem) (i : nat) :
  (List.length (gapAt timeline i) <= 1)%nat.
Proof.
  unfold gapAt. destruct (timeline !! (i - 1)%nat), (timeline !! i); simpl; try lia.
  destruct (Qgt_bool _ 50); simpl; lia.
Qed.

Lemma gapAt_In (timeline : list TimelineItem) (i : nat) (g : PerformanceGap) :
  In g (gapAt timeline i) ->
  exists prev next,
    timeline !! (i - 1)%nat = Some prev /\ timeline !! i = Some next /\
    (50 < t_start next - t_end prev)%Q /\ g = gapBetween prev next.
Proof.
  unfold gapAt.
  destruct (timeline !! (i - 1)%nat) as [prev|]; [|intros []].
  destruct (timeline !! i) as [next|]; [|intros []].
  destruct (Qgt_bool _ 50) eqn:E; [|intros []].
  apply Qgt_bool_spec in E. intros [<-|[]].
  exists prev, next. repeat split; auto.
Qed.

(** The gaps of a timeline are fewer than the entries; each spans more
    than 50ms; when no entry has a negative time they come in
    chronological order and do not overlap: a gap ends before the next one
    starts. *)
Theorem timeline_gaps_ordered (entries : list Entry) (startTime : Q) :
  let gaps := timelineGaps (timelineOf entries startTime) in
  (List.length gaps <= List.length entries - 1)%nat /\
  (forall g, In g gaps ->
     exists gs ge, gapInterval g = Some (gs, ge) /\ (gs + 50 < ge)%Q) /\
  ((forall e, In e entries -> (0 <= time e)%Q) ->
     StronglySorted
       (fun g1 g2 =>
          forall s1 e1 s2 e2,
            gapInterval g1 = Some (s1, e1) -> gapInterval g2 = Some (s2, e2) ->
            (e1 <= s2)%Q)
       gaps).
Proof.
  intros gaps. subst gaps. set (timeline := timelineOf entries startTime).
  assert (Hlen : List.length timeline = List.length entries).
  { unfold timeline, timelineOf.
    rewrite (Permutation_length (sort_perm _ _)). apply length_map. }
  split; [|split].
  - unfold timelineGaps. rewrite Hlen.
    apply flat_map_seq_length, gapAt_length.
  - intros g Hg. apply timelineGaps_In in Hg.
    destruct Hg as (i & prev & next & _ & _ & Hgap & ->).
    exists (t_end prev), (t_start next). split; [reflexivity|lra].
  - intros Hpos.
    assert (Hitem : forall it, In it timeline -> (t_start it <= t_end it)%Q).
    { intros it Hit. apply timelineOf_In in Hit. destruct Hit as [e [He ->]].
      specialize (Hpos e He). simpl. lra. }
    assert (Hsorted : StronglySorted (fun a b => (t_start a <= t_start b)%Q) timeline)
      by apply (sort_ascending t_start).
    unfold timelineGaps. apply flat_map_seq_sorted; [apply gapAt_length|].
    intros i j x y Hi Hij _ Hx Hy s1 e1 s2 e2 H1 H2.
    apply gapAt_In in Hx, Hy.
    destruct Hx as (p1 & n1 & _ & Hn1 & _ & ->).
    destruct Hy as (p2 & n2 & Hp2 & _ & _ & ->).
    simpl in H1, H2. injection H1 as <- <-. injection H2 as <- <-.
    apply Qle_trans with (t_start p2).
    + destruct (Nat.eq_dec i (j - 1)) as [->|Hne].
      * rewrite Hn1 in Hp2. injection Hp2 as <-. apply Qle_refl.
      * apply (StronglySorted_lookup _ timeline i (j - 1) n1 p2 Hsorted);
          [lia|exact Hn1|exact Hp2].
    + apply Hitem. eapply lookup_In. exact Hp2.
Qed.

Lemma timeline_gaps_ordered_witness :
  (List.length (timelineGaps (timelineOf trace_gap 1000)) <= 1)%nat /\
  StronglySorted
    (fun g1 g2 =>
       forall s1 e1 s2 e2,
         gapInterval g1 = Some (s1, e1) -> gapInterval g2 = Some (s2, e2) ->
         (e1 <= s2)%Q)
    (timelineGaps (timelineOf trace_gap 1000)).
Proof.
  destruct (timeline_gaps_ordered trace_gap 1000) as (Hlen & _ & Hsorted).
  split; [exact Hlen|]. apply Hsorted.
  intros e [<-|[<-|[]]]; vm_compute; discriminate.
Defined.

(** ** Independence of the clock *)

Section Shift.
Variable d : Z.

Lemma relativeStart_shift (e f : Entry) :
  (getTime (shiftEntry d e) - getTime (shiftEntry d f))%Q = (getTime e - getTime f)%Q.
Proof.
  unfold getTime, shiftEntry. cbn [startedDateTime].
  unfold Qminus, Qplus, Qopp, inject_Z. cbn [Qnum Qden]. f_equal. lia.
Qed.

Lemma issuesOf_shift (e f : Entry) :
  issuesOf (shiftEntry d e) (getTime (shiftEntry d f)) = issuesOf e (getTime f).
Proof.
  unfold issuesOf, bottleneckOf, relativeStartTime.
  rewrite relativeStart_shift. reflexivity.
Qed.

Lemma analyzeRequest_shift (e f : Entry) (r : AnalysisReport) :
  analyzeRequest (shiftEntry d e) (getTime (shiftEntry d f)) r
  = analyzeRequest e (getTime f) r.
Proof.
  unfold analyzeRequest. rewrite issuesOf_shift. reflexivity.
Qed.

Lemma analyzeAll_shift (f : Entry) (entries : list Entry) (r : AnalysisReport) :
  fold_left (fun acc entry => analyzeRequest entry (getTime (shiftEntry d f)) acc)
    (List.map (shiftEntry d) entries) r
  = fold_left (fun acc entry => analyzeRequest entry (getTime f) acc) entries r.
Proof.
  revert r; induction entries as [|e es IH]; intros r; simpl; [reflexivity|].
  rewrite analyzeRequest_shift. apply IH.
Qed.

Lemma timelineOf_shift (f : Entry) (entries : list Entry) :
  timelineOf (List.map (shiftEntry d) entries) (getTime (shiftEntry d f))
  = timelineOf entries (getTime f).
Proof.
  unfold timelineOf. f_equal. rewrite List.map_map. apply List.map_ext.
  intros e. unfold timelineItem. rewrite relativeStart_shift. reflexivity.
Qed.

Lemma filter_map_shift (p : Entry -> bool) (entries : list Entry) :
  (forall e, p (shiftEntry d e) = p e) ->
  List.filter p (List.map (shiftEntry d) entries)
  = List.map (shiftEntry d) (List.filter p entries).
Proof.
  intros Hp. induction entries as [|e es IH]; simpl; [reflexivity|].
  rewrite Hp. destruct (p e); simpl; now rewrite IH.
Qed.

Lemma identifyCriticalPath_shift (entries : list Entry) (r : AnalysisReport) :
  identifyCriticalPath (List.map (shiftEntry d) entries) r
  = identifyCriticalPath entries r.
Proof.
  unfold identifyCriticalPath. f_equal. f_equal. f_equal.
  - induction entries as [|e es IH]; simpl; [reflexivity|].
    change (isHtmlDocument (shiftEntry d e)) with (isHtmlDocument e).
    destruct (isHtmlDocument e); [reflexivity|exact IH].
  - unfold criticalResources.
    rewrite filter_map_shift by reflexivity.
    rewrite (sort_map (fun a b => (time a - time b)%Q) (fun a b => (time a - time b)%Q)
               (shiftEntry d)) by reflexivity.
    rewrite firstn_map, List.map_map. reflexivity.
Qed.
Lemma issues_shift (f : Entry) (entries : list Entry) :
  flat_map (fun e => issuesOf e (getTime (shiftEntry d f)))
    (List.map (shiftEntry d) entries)
  = flat_map (fun e => issuesOf e (getTime f)) entries.
Proof.
  induction entries as [|e es IH]; simpl; [reflexivity|].
  now rewrite issuesOf_shift, IH.
Qed.

Lemma breakdownOf_shift (entries : list Entry) (rb : gmap string ResourceStat) :
  breakdownOf (List.map (shiftEntry d) entries) rb = breakdownOf entries rb.
Proof.
  unfold breakdownOf. revert rb; induction entries as [|e es IH]; intros rb;
    simpl; [reflexivity|]. apply IH.
Qed.
End Shift.

(** The offsets, and all that is derived from them, depend on the
    differences between the start timestamps only: when every entry of a
    trace is moved by the same number of milliseconds, the bottlenecks, the
    resource breakdown, the critical path, the timeline and its gaps are the
    same, from any report.  The total load time, computed from the sum
    [start + time], and the object of type ["Target Exceeded"] derived from
    it, are the only parts computed from the timestamps themselves. *)
Theorem analysis_time_shift (d : Z) (first : Entry) (rest : list Entry)
    (r0 : AnalysisReport) :
  let entries := first :: rest in
  let shifted := List.map (shiftEntry d) entries in
  exists (r r' : AnalysisReport) (gaps : list PerformanceGap),
    performAnalysis entries r0 = JS.Normal r /\
    performAnalysis shifted r0 = JS.Normal r' /\
    bottlenecks r' = bottlenecks r /\
    resourceBreakdown r' = resourceBreakdown r /\
    criticalPathItems r' = criticalPathItems r /\
    timelineOf shifted (getTime (shiftEntry d first)) = timelineOf entries (getTime first) /\
    gaps = timelineGaps (timelineOf entries (getTime first)) /\
    performanceGaps r = performanceGaps r0 ++ gaps ++ targetFinding (totalLoadTime r) /\
    performanceGaps r' = performanceGaps r0 ++ gaps ++ targetFinding (totalLoadTime r').
Proof.
  intros entries shifted. subst entries shifted.
  destruct (performAnalysis_cons first rest r0)
    as (r & Hr & Ht & Hb & Hg & Hc & Hrb).
  destruct (performAnalysis_cons (shiftEntry d first) (List.map (shiftEntry d) rest) r0)
    as (r' & Hr' & Ht' & Hb' & Hg' & Hc' & Hrb').
  change (shiftEntry d first :: List.map (shiftEntry d) rest)
    with (List.map (shiftEntry d) (first :: rest)) in *.
  exists r, r', (timelineGaps (timelineOf (first :: rest) (getTime first))).
  split; [exact Hr|]. split; [exact Hr'|].
  split; [rewrite Hb, Hb', issues_shift; reflexivity|].
  split; [rewrite Hrb, Hrb', breakdownOf_shift; reflexivity|].
  split.
  { rewrite Hc, Hc'.
    pose proof (identifyCriticalPath_shift d (first :: rest) r0) as H.
    apply (f_equal criticalPathItems) in H. exact H. }
  split; [apply timelineOf_shift|]. split; [reflexivity|].
  split; [rewrite Hg, Ht; reflexivity|].
  rewrite Hg', Ht', timelineOf_shift. reflexivity.
Qed.

(** ** The number shown by [formatBytes] *)

(** For a positive number of bytes the value that [formatBytes] shows,
    counted in hundredths, lies between 1.00 and 1024.00 and is within half
    a hundredth of the quotient of the bytes by the power of 1024 of the
    unit; below 1024 the result is the number itself followed by Bytes. *)
Theorem formatBytes_value_range (bytes : Z) :
  (0 < bytes)%Z ->
  let i := unitIndex bytes in
  let n := toFixed2 bytes i in
  formatBytes bytes = hundredthsToString n +:+ " " +:+ sizeUnit i /\
  (100 <= n <= 102400)%Z /\
  (2 * k ^ i * n - k ^ i <= 200 * bytes < 2 * k ^ i * n + k ^ i)%Z /\
  ((bytes < 1024)%Z -> formatBytes bytes = pretty bytes +:+ " Bytes").
Proof.
  intros Hpos i n. subst n.
  split; [now apply formatBytes_pos|].
  destruct (unitIndex_spec bytes Hpos) as [Hi [Hlo Hhi]]. fold i in Hi, Hlo, Hhi.
  rewrite Z.pow_add_r in Hhi by lia. change (k ^ 1)%Z with 1024%Z in Hhi.
  unfold toFixed2.
  assert (HK : (0 < k ^ i)%Z) by (apply Z.pow_pos_nonneg; unfold k; lia).
  set (K := (k ^ i)%Z) in *.
  pose proof (Z.mul_div_le (200 * bytes + K) (2 * K) ltac:(lia)) as Hdl.
  pose proof (Z.mul_succ_div_gt (200 * bytes + K) (2 * K) ltac:(lia)) as Hdu.
  set (q := ((200 * bytes + K) / (2 * K))%Z) in *.
  split; [|split].
  - split.
    + apply Z.div_le_lower_bound; lia.
    + assert (q < 102401)%Z by (apply Z.div_lt_upper_bound; lia). lia.
  - lia.
  - intros Hsmall.
    assert (Hi0 : i = 0%Z).
    { pose proof (unitIndex_lt bytes 1 Hpos ltac:(lia) Hsmall). unfold i in *. lia. }
    rewrite formatBytes_pos by exact Hpos. fold i. rewrite Hi0.
    unfold toFixed2, hundredthsToString, sizeUnit.
    change (k ^ 0)%Z with 1%Z.
    replace ((200 * bytes + 1) / (2 * 1))%Z with (100 * bytes)%Z
      by (apply Z.div_unique with (r := 1%Z); lia).
    replace ((100 * bytes) mod 100)%Z with 0%Z
      by (apply Z.mod_unique with (q := bytes); lia).
    replace (100 * bytes / 100)%Z with bytes
      by (apply Z.div_unique with (r := 0%Z); lia).
    reflexivity.
Qed.

Lemma formatBytes_value_range_witness : formatBytes 1023 = "1023 Bytes".
Proof.
  destruct (formatBytes_value_range 1023 ltac:(lia)) as (_ & _ & _ & H).
  rewrite H by lia. vm_compute. reflexivity.
Defined.

(** ** An analyzer that is used again *)

(** [performAnalysis] adds to the report it is given: the counts grow by
    the number of entries, the bottlenecks of the trace join those already
    there, the critical path and the gaps are appended to; only the total
    load time is set anew.  The recommendations are not touched. *)
Theorem performAnalysis_accumulates (first : Entry) (rest : list Entry)
    (r : AnalysisReport) :
  let entries := first :: rest in
  exists r' : AnalysisReport,
    performAnalysis entries r = JS.Normal r' /\
    totalLoadTime r' = (spec_maxEnd first rest - getTime first)%Q /\
    sumCounts (resourceBreakdown r')
    = (sumCounts (resourceBreakdown r) + Z.of_nat (List.length entries))%Z /\
    Permutation (bottlenecks r')
      (bottlenecks r ++ flat_map (fun e => issuesOf e (getTime first)) entries) /\
    (exists added, criticalPathItems r' = criticalPathItems r ++ added) /\
    (exists added, performanceGaps r' = performanceGaps r ++ added) /\
    optimizations r' = optimizations r.
Proof.
  intros entries. subst entries.
  destruct (performAnalysis_cons first rest r) as (r' & Hr & Ht & Hb & Hg & Hc & Hrb).
  exists r'. split; [exact Hr|]. split; [exact Ht|].
  split; [rewrite Hrb, sumCounts_finish, sumCounts_breakdownOf; reflexivity|].
  split; [rewrite Hb; apply sort_perm|].
  split; [rewrite Hc; eauto|]. split; [rewrite Hg; eauto|].
  exact (performAnalysis_optimizations first rest r r' Hr).
Qed.

(** ** The gaps that are printed *)

(** Five gaps of the timeline fill the printed list: the object of type
    ["Target Exceeded"], pushed last, is then not printed although it is in
    the report; with fewer than five gaps it is printed whenever the total
    load time exceeds the target. *)
Theorem target_finding_printed_last (first : Entry) (rest : list Entry) :
  let entries := first :: rest in
  let gaps := timelineGaps (timelineOf entries (getTime first)) in
  exists r : AnalysisReport,
    performAnalysis entries initialReport = JS.Normal r /\
    ((5 <= List.length gaps)%nat ->
       printedGaps r = take 5 gaps /\
       forall excess, ~ In (TargetExceeded excess) (printedGaps r)) /\
    ((List.length gaps < 5)%nat -> (targetLoadTime < totalLoadTime r)%Q ->
       printedGaps r = gaps ++ [TargetExceeded (totalLoadTime r - targetLoadTime)%Q]).
Proof.
  intros entries gaps. subst entries.
  destruct (performAnalysis_cons first rest initialReport) as (r & Hr & _).
  destruct (fresh_analysis_fields first rest r Hr) as (_ & _ & Hg & _).
  fold gaps in Hg.
  exists r. split; [exact Hr|]. unfold printedGaps. rewrite Hg. split.
  - intros Hlen. rewrite take_app_le by exact Hlen. split; [reflexivity|].
    intros excess Hin.
    assert (Hin' : In (TargetExceeded excess) gaps).
    { apply list_elem_of_In. apply list_elem_of_In in Hin.
      eapply elem_of_sublist; [exact Hin|apply sublist_take]. }
    apply timelineGaps_In in Hin'.
    destruct Hin' as (i & p & n & _ & _ & _ & H). discriminate H.
  - intros Hlen Hlt. unfold targetFinding.
    apply Qgt_bool_spec in Hlt. rewrite Hlt.
    apply take_ge. rewrite length_app. simpl. lia.
Qed.

Lemma target_finding_printed_witness :
  exists r : AnalysisReport,
    performAnalysis trace_gap initialReport = JS.Normal r /\
    List.length (printedGaps r) = 2%nat.
Proof.
  destruct (target_finding_printed_last
              (entry_ 1000 100 "http://localhost:3000/" "text/html" 20480)
              [entry_ 1400 30 "http://localhost:3000/a.css" "text/css" 5120])
    as (r & Hr & _ & H).
  exists r. split; [exact Hr|].
  rewrite H.
  - vm_compute. reflexivity.
  - vm_compute. lia.
  - pose proof Hr as Hr'. vm_compute in Hr'. injection Hr' as <-. reflexivity.
Defined.
